(** * dify_knowledge_pipline / fire_drop.py : the [DifyFireDrop] client

    A shallow embedding of the synchronisation client of
    [src/dify_knowledge_pipline/fire_drop.py].  The client is sequential
    code that talks to a remote knowledge-base service through one
    [httpx.Client]; everything it does is observable as the ordered list
    of HTTP requests it issues, the log records it writes and the pauses
    it takes.  The remote service is not part of the repository: it is a
    parameter of the development (a state type and a request handler), so
    that every statement holds for every service, and every sequence of
    responses is produced by some service.

    Python exceptions are an explicit outcome; unbounded recursion and
    [while True] take a fuel argument and report [OutOfFuel] when it is
    exhausted. *)

From Stdlib Require Import List String Ascii ZArith Bool Lia PeanoNat.
Import ListNotations.
Local Open Scope string_scope.
Local Open Scope list_scope.

(** ** Wire data *)

(** An element of a listing ([GET /datasets], [GET /datasets/{id}/documents]):
    the code reads the keys ["id"] and ["name"] and nothing else. *)
Record item : Type := Item { id : string; name : string }.

(** A row of [GET .../indexing-status]: the three keys read at lines 156-158. *)
Record indexing_row : Type := IndexingRow {
  total_segments : Z;
  completed_segments : Z;
  indexing_status : string
}.

(** [class UploadDocumentResponse(BaseModel)], lines 21-23. *)
Record UploadDocumentResponse : Type := Upload {
  document : list (string * string);
  batch : string
}.

(** What the model [UploadDocumentResponse] reads of a JSON object that it
    accepts: the string under ["batch"] and, when the key is present, the
    dictionary under ["document"]; other keys are ignored by the model. *)
Record upload_json : Type := UploadJson {
  json_document : option (list (string * string));
  json_batch : string
}.

(** The construction of [UploadDocumentResponse] from the keys of such an
    object, lines 21-23: [batch] is required (line 23) and [document]
    defaults to the empty dictionary (default_factory=dict, line 22). *)
Definition validate_upload (j : upload_json) : UploadDocumentResponse :=
  Upload
    (match json_document j with
     | Some document => document
     | None => []
     end)
    (json_batch j).

(** The dictionary built by [_document_preprocess_payload], lines 46-60. *)
Record payload : Type := Payload {
  p_name : string;
  p_text : string;
  indexing_technique : string;
  process_rule_mode : string;
  pre_processing_rules : list (string * bool);
  segmentation_separator : string;
  segmentation_max_tokens : Z
}.

(** The requests the client can issue, one constructor per call site. *)
Inductive request : Type :=
| GET_datasets                                              (* line 112, limit=100 *)
| POST_datasets (db_name : string)                          (* line 123 *)
| GET_documents (dataset_id : string) (keyword : option string)  (* line 142, limit=100 *)
| POST_create_by_text (dataset_id : string) (p : payload)   (* line 103 *)
| POST_update_by_text (dataset_id document_id : string) (p : payload) (* line 73 *)
| DELETE_document (dataset_id document_id : string)         (* line 65 *)
| GET_indexing_status (dataset_id batch_token : string).    (* line 154 *)

(** The body of a response, as far as [res.json()] and the subscripts applied
    to it can tell bodies apart. *)
Inductive body : Type :=
| JData (data : list item)            (* {"data": [{"id":..,"name":..},..]} *)
| JIndexing (data : list indexing_row)(* {"data": [{"total_segments":..,..},..]} *)
| JUpload (j : upload_json)           (* an object that the model
                                         UploadDocumentResponse accepts:
                                         {"batch": ".."}, with or without
                                         "document": {..} *)
| JOther                              (* any other JSON value *)
| NotJson.                            (* a body that is not JSON *)

(** What a call on the [httpx.Client] gives back: a response with a status
    code, or an exception raised by the transport. *)
Inductive reply : Type :=
| Response (status_code : Z) (content : body)
| TransportFailure.

Inductive exn : Type :=
| HTTPStatusError (status_code : Z)
| TransportError
| JSONDecodeError
| KeyError
| IndexError
| ValidationError.

Inductive level : Type := ERROR | WARNING | SUCCESS | DEBUG.

(** The log records of the file, by the line that writes them. *)
Inductive message : Type :=
| MsgUpdateFailed (table_name : string)             (* line 77 *)
| MsgDatasetId (db_name dataset_id : string)        (* line 117 *)
| MsgDatasetMissing                                 (* line 120 *)
| MsgDatasetCreated (answer : body)                 (* line 124 *)
| MsgEmptyInput                                     (* line 186 *)
| MsgDeleteDocument (doc : item)                    (* line 221 *)
| MsgDeleteFailed (doc_name : string) (err : exn)   (* line 223 *)
| MsgDeleteAll (count : nat).                       (* line 224 *)

Inductive event : Type :=
| Http (q : request)
| Log (lvl : level) (m : message)
| Sleep (seconds : Z).

Inductive outcome (A : Type) : Type :=
| Ret (a : A)
| Raise (e : exn)
| OutOfFuel.
Arguments Ret {A} a.
Arguments Raise {A} e.
Arguments OutOfFuel {A}.

(** [httpx.Response.is_success]: status codes 200 to 299.
    [raise_for_status] raises [HTTPStatusError] on every other status. *)
Definition is_success (status_code : Z) : bool :=
  ((200 <=? status_code) && (status_code <=? 299))%Z.

(** Python truthiness of a [str]: the empty string is false. *)
Definition truthy (s : string) : bool := negb (s =? EmptyString).

Definition newline : string := String (ascii_of_nat 10) EmptyString.

(** The default of line 33: two newlines, twelve dashes, two newlines. *)
Definition default_separator : string :=
  (newline ++ newline ++ "------------" ++ newline ++ newline)%string.

(** The part of the instance the methods read. *)
Record DifyFireDrop : Type := { my_separator : string }.

(** [__init__], line 33: [separator or default].  The check of the API key
    (lines 35-39) and the construction of the HTTP client (lines 41-43) set
    up the transport, which is the [handle] parameter below. *)
Definition __init__ (separator : option string) : DifyFireDrop :=
  {| my_separator :=
       match separator with
       | Some s => if truthy s then s else default_separator
       | None => default_separator
       end |}.

(** [_document_preprocess_payload], lines 45-61. *)
Definition _document_preprocess_payload (self : DifyFireDrop)
  (name text : string) : payload :=
  {| p_name := name;
     p_text := text;
     indexing_technique := "high_quality";
     process_rule_mode := "custom";
     pre_processing_rules :=
       [("remove_extra_spaces", false); ("remove_urls_emails", false)];
     segmentation_separator := my_separator self;
     segmentation_max_tokens := 1000 |}.

(** [status in ["error", "completed"]], line 163. *)
Definition terminal_status (status : string) : bool :=
  (status =? "error") || (status =? "completed").

(** ** The client, over an arbitrary remote service *)

Section Client.

(** The remote service: its state and how it answers a request. *)
Variable remote : Type.
Variable handle : request -> remote -> reply * remote.

(** A run from a service state: how it ended, what was observed, and the
    service state it left. *)
Record run (A : Type) : Type := Run {
  result : outcome A;
  emitted : list event;
  after : remote
}.
Arguments Run {A} _ _ _.
Arguments result {A} _.
Arguments emitted {A} _.
Arguments after {A} _.

Definition M (A : Type) : Type := remote -> run A.

Definition ret {A} (a : A) : M A := fun s => Run (Ret a) [] s.
Definition raise {A} (e : exn) : M A := fun s => Run (Raise e) [] s.
Definition out_of_fuel {A} : M A := fun s => Run OutOfFuel [] s.

Definition bind {A B} (m : M A) (k : A -> M B) : M B := fun s =>
  let r := m s in
  match result r with
  | Ret a =>
      let r' := k a (after r) in
      Run (result r') (emitted r ++ emitted r') (after r')
  | Raise e => Run (Raise e) (emitted r) (after r)
  | OutOfFuel => Run OutOfFuel (emitted r) (after r)
  end.

(** [try: m  except <caught>: handler] followed by [k] when [m] did not
    raise; a handler that ends in [return] is a [handler] that does not
    reach [k]. *)
Definition try_except {A B} (m : M A) (handler : exn -> option (M B))
  (k : A -> M B) : M B := fun s =>
  let r := m s in
  match result r with
  | Ret a =>
      let r' := k a (after r) in
      Run (result r') (emitted r ++ emitted r') (after r')
  | Raise e =>
      match handler e with
      | Some h =>
          let r' := h (after r) in
          Run (result r') (emitted r ++ emitted r') (after r')
      | None => Run (Raise e) (emitted r) (after r)
      end
  | OutOfFuel => Run OutOfFuel (emitted r) (after r)
  end.

Notation "x <- m ;; k" := (bind m (fun x => k))
  (at level 100, m at next level, right associativity).
Notation "m ;;; k" := (bind m (fun _ => k))
  (at level 100, right associativity).

Definition emit (e : event) : M unit := fun s => Run (Ret tt) [e] s.
Definition logger (lvl : level) (m : message) : M unit := emit (Log lvl m).
Definition sleep (seconds : Z) : M unit := emit (Sleep seconds).

(** One call on [self._client]. *)
Definition send (q : request) : M (Z * body) := fun s =>
  match handle q s with
  | (Response st b, s') => Run (Ret (st, b)) [Http q] s'
  | (TransportFailure, s') => Run (Raise TransportError) [Http q] s'
  end.

(** [res.raise_for_status()]. *)
Definition raise_for_status (res : Z * body) : M unit :=
  if is_success (fst res) then ret tt else raise (HTTPStatusError (fst res)).

(** [res.json()["data"]] read as a list of objects with ["id"] and
    ["name"].  An empty list of rows is the same JSON value as an empty
    list of items; a non-empty list of rows fails at the first subscript
    of its first element, before anything else is observed. *)
Definition json_data (res : Z * body) : M (list item) :=
  match snd res with
  | JData l => ret l
  | JIndexing [] => ret []
  | JIndexing (_ :: _) => raise KeyError
  | JUpload _ => raise KeyError
  | JOther => raise KeyError
  | NotJson => raise JSONDecodeError
  end.

(** [res.json()["data"][0]] and the three subscripts of lines 156-158. *)
Definition json_first_indexing_row (res : Z * body) : M indexing_row :=
  match snd res with
  | JIndexing (row :: _) => ret row
  | JIndexing [] => raise IndexError
  | JData [] => raise IndexError
  | JData (_ :: _) => raise KeyError
  | JUpload _ => raise KeyError
  | JOther => raise KeyError
  | NotJson => raise JSONDecodeError
  end.

(** The [UploadDocumentResponse] built from the keys of [res.json()],
    lines 82 and 106. *)
Definition json_upload (res : Z * body) : M UploadDocumentResponse :=
  match snd res with
  | JUpload j => ret (validate_upload j)
  | NotJson => raise JSONDecodeError
  | _ => raise ValidationError
  end.

(** [res.json()] alone, line 124. *)
Definition json_any (res : Z * body) : M body :=
  match snd res with
  | NotJson => raise JSONDecodeError
  | answer => ret answer
  end.

Variable self : DifyFireDrop.

(** [_delete_document], lines 63-66. *)
Definition _delete_document (dataset_id document_id : string) : M unit :=
  res <- send (DELETE_document dataset_id document_id) ;;
  raise_for_status res.

(** [_update_document_by_text], lines 68-85. *)
Definition _update_document_by_text (dataset_id document_id : string)
  (table_name text : string) : M (option UploadDocumentResponse) :=
  let payload := _document_preprocess_payload self table_name text in
  res <- send (POST_update_by_text dataset_id document_id payload) ;;
  try_except (raise_for_status res)
    (fun e =>
       match e with
       | HTTPStatusError _ =>
           Some (logger ERROR (MsgUpdateFailed table_name) ;;; ret None)
       | _ => None
       end)
    (fun _ =>
       udr <- json_upload res ;;
       ret (Some udr)).

(** [_create_document_by_text], lines 87-109. *)
Definition _create_document_by_text (dataset_id : string)
  (table_name text : string) : M UploadDocumentResponse :=
  let payload := _document_preprocess_payload self table_name text in
  res <- send (POST_create_by_text dataset_id payload) ;;
  raise_for_status res ;;;
  udr <- json_upload res ;;
  ret udr.

(** The [for ... if ...: return ...] scans of lines 114-118 and 132-136
    stop at the first element with the given name. *)
Definition first_named (wanted : string) (l : list item) : option item :=
  find (fun d => name d =? wanted) l.

(** [_hook_knowledge_dataset], lines 111-126.  [depth] bounds the nesting
    of the recursive call of line 126. *)
Fixpoint _hook_knowledge_dataset (depth : nat) (db_name : string)
  : M string :=
  match depth with
  | O => out_of_fuel
  | S depth' =>
      res <- send GET_datasets ;;
      datasets <- json_data res ;;
      match first_named db_name datasets with
      | Some dataset =>
          let dataset_id := id dataset in
          logger SUCCESS (MsgDatasetId db_name dataset_id) ;;;
          ret dataset_id
      | None =>
          logger WARNING MsgDatasetMissing ;;;
          res <- send (POST_datasets db_name) ;;
          answer <- json_any res ;;
          logger SUCCESS (MsgDatasetCreated answer) ;;;
          _hook_knowledge_dataset depth' db_name
      end
  end.

(** [_list_documents], lines 138-146. *)
Definition _list_documents (dataset_id : string)
  (table_name : option string) : M (list item) :=
  res <- send (GET_documents dataset_id table_name) ;;
  documents <- json_data res ;;
  ret documents.

(** [_sync_document_id], lines 128-136. *)
Definition _sync_document_id (dataset_id table_name : string)
  : M (option string) :=
  documents <- _list_documents dataset_id (Some table_name) ;;
  let document_name := (table_name ++ ".txt")%string in
  match first_named document_name documents with
  | Some document => ret (Some (id document))
  | None => ret None
  end.

(** [_sync_indexing_status], lines 148-164.  [polls] bounds the number of
    iterations of the [while True].  The progress bar (lines 151, 156,
    157 and 160) only displays the counts read from the row. *)
Fixpoint _sync_indexing_status (polls : nat) (dataset_id batch : string)
  : M unit :=
  match polls with
  | O => out_of_fuel
  | S polls' =>
      res <- send (GET_indexing_status dataset_id batch) ;;
      data <- json_first_indexing_row res ;;
      let status := indexing_status data in
      sleep 1 ;;;
      if terminal_status status then ret tt
      else _sync_indexing_status polls' dataset_id batch
  end.

(** The body of the [for] of lines 195-211, up to the value appended to
    [response_seq].  Line 197 tests the truthiness of the identifier the
    locator returned. *)
Definition embed_one (dataset_id : string) (force_override : bool)
  (table_name knowledge_card : string)
  : M (option UploadDocumentResponse) :=
  found <- _sync_document_id dataset_id table_name ;;
  match found with
  | Some document_id =>
      if truthy document_id then
        if force_override then
          _delete_document dataset_id document_id ;;;
          response <- _create_document_by_text dataset_id table_name
                        knowledge_card ;;
          ret (Some response)
        else
          _update_document_by_text dataset_id document_id table_name
            knowledge_card
      else
        response <- _create_document_by_text dataset_id table_name
                      knowledge_card ;;
        ret (Some response)
  | None =>
      response <- _create_document_by_text dataset_id table_name
                    knowledge_card ;;
      ret (Some response)
  end.

(** The [for] of lines 195-211; it ends with the [response_seq] built. *)
Fixpoint embed_loop (dataset_id : string) (force_override : bool)
  (tasks : list (string * string))
  (response_seq : list (option UploadDocumentResponse))
  : M (list (option UploadDocumentResponse)) :=
  match tasks with
  | [] => ret response_seq
  | (table_name, knowledge_card) :: tasks' =>
      response <- embed_one dataset_id force_override table_name
                    knowledge_card ;;
      embed_loop dataset_id force_override tasks'
        (response_seq ++ [response])
  end.

(** [embed_knowledge], lines 166-211.  The value is what the call
    returns: [None] is Python's [None], both for the [return] of line 187
    and for falling off the end after line 211. *)
Definition embed_knowledge (depth : nat)
  (table_to_knowledge : list (string * string)) (db_name : string)
  (force_override : bool)
  : M (option (list (option UploadDocumentResponse))) :=
  match table_to_knowledge with
  | [] =>
      logger ERROR MsgEmptyInput ;;;
      ret None
  | _ :: _ =>
      dataset_id <- _hook_knowledge_dataset depth db_name ;;
      _ <- embed_loop dataset_id force_override table_to_knowledge [] ;;
      ret None
  end.

(** The [for] of lines 218-223. *)
Fixpoint delete_loop (dataset_id : string) (docs : list item) : M unit :=
  match docs with
  | [] => ret tt
  | doc :: docs' =>
      try_except
        (_delete_document dataset_id (id doc) ;;;
         logger DEBUG (MsgDeleteDocument doc))
        (fun err =>
           match err with
           | HTTPStatusError _ =>
               Some (logger WARNING (MsgDeleteFailed (name doc) err))
           | _ => None
           end)
        (fun _ => ret tt) ;;;
      delete_loop dataset_id docs'
  end.

(** [delete_all_document], lines 213-224. *)
Definition delete_all_document (depth : nat) (db_name : string) : M unit :=
  dataset_id <- _hook_knowledge_dataset depth db_name ;;
  docs <- _list_documents dataset_id None ;;
  delete_loop dataset_id docs ;;;
  logger SUCCESS (MsgDeleteAll (List.length docs)).

End Client.

Arguments Run {remote A} _ _ _.
Arguments result {remote A} _.
Arguments emitted {remote A} _.
Arguments after {remote A} _.
Arguments ret {remote A} _ _.
Arguments raise {remote A} _ _.
Arguments out_of_fuel {remote A} _.
Arguments bind {remote A B} _ _ _.
Arguments try_except {remote A B} _ _ _ _.
Arguments emit {remote} _ _.
Arguments logger {remote} _ _ _.
Arguments sleep {remote} _ _.
Arguments send {remote} _ _ _.
Arguments raise_for_status {remote} _ _.
Arguments json_data {remote} _ _.
Arguments json_first_indexing_row {remote} _ _.
Arguments json_upload {remote} _ _.
Arguments json_any {remote} _ _.
Arguments _delete_document {remote} _ _ _ _.
Arguments _update_document_by_text {remote} _ _ _ _ _ _ _.
Arguments _create_document_by_text {remote} _ _ _ _ _ _.
Arguments _hook_knowledge_dataset {remote} _ _ _ _.
Arguments _list_documents {remote} _ _ _ _.
Arguments _sync_document_id {remote} _ _ _ _.
Arguments _sync_indexing_status {remote} _ _ _ _ _.
Arguments embed_one {remote} _ _ _ _ _ _ _.
Arguments embed_loop {remote} _ _ _ _ _ _ _.
Arguments embed_knowledge {remote} _ _ _ _ _ _ _.
Arguments delete_loop {remote} _ _ _ _.
Arguments delete_all_document {remote} _ _ _ _.

(** ** Reading a trace *)

(** The HTTP requests of a trace, in the order they were issued. *)
Fixpoint requests (evs : list event) : list request :=
  match evs with
  | [] => []
  | Http q :: evs' => q :: requests evs'
  | _ :: evs' => requests evs'
  end.

Definition is_create_dataset (q : request) : bool :=
  match q with POST_datasets _ => true | _ => false end.

(** What [delete_all_document] observes for one listed document whose delete
    was answered with status [st]: the request, then the record of line 221
    or of line 223. *)
Definition delete_report (dataset_id : string) (doc_st : item * Z)
  : list event :=
  let (doc, st) := doc_st in
  [ Http (DELETE_document dataset_id (id doc));
    if is_success st
    then Log DEBUG (MsgDeleteDocument doc)
    else Log WARNING (MsgDeleteFailed (name doc) (HTTPStatusError st)) ].

(** The status codes the service answers to the deletes of [docs], issued
    one after the other from the state [s], up to the first delete that
    fails in the transport. *)
Fixpoint delete_statuses {remote}
  (handle : request -> remote -> reply * remote)
  (dataset_id : string) (docs : list item) (s : remote) : list Z :=
  match docs with
  | [] => []
  | doc :: docs' =>
      match handle (DELETE_document dataset_id (id doc)) s with
      | (Response st _, s') =>
          st :: delete_statuses handle dataset_id docs' s'
      | (TransportFailure, _) => []
      end
  end.

(** ** Services to run the client against *)

(** A service that keeps its datasets and documents in memory.  Documents
    whose identifier is in [archived] reject updates; those in [locked]
    reject deletion.  A listing of documents returns every document of the
    dataset, whatever the keyword: the client scans it for the exact name
    anyway (lines 132-136). *)
Record memory : Type := Memory {
  datasets : list item;
  documents : list (string * item);
  archived : list string;
  locked : list string
}.

Definition mem (x : string) (l : list string) : bool :=
  existsb (String.eqb x) l.

Definition documents_of (dataset_id : string) (m : memory) : list item :=
  map snd (filter (fun d => fst d =? dataset_id) (documents m)).

Definition memory_handle (q : request) (m : memory) : reply * memory :=
  match q with
  | GET_datasets => (Response 200 (JData (datasets m)), m)
  | POST_datasets n =>
      (Response 200 JOther,
       Memory (datasets m ++ [Item ("ds-" ++ n) n]) (documents m)
         (archived m) (locked m))
  | GET_documents d _ => (Response 200 (JData (documents_of d m)), m)
  | POST_create_by_text d p =>
      (Response 200 (JUpload (UploadJson (Some []) ("batch-" ++ p_name p))),
       Memory (datasets m)
         (documents m ++ [(d, Item ("doc-" ++ p_name p) (p_name p ++ ".txt"))])
         (archived m) (locked m))
  | POST_update_by_text d i p =>
      if mem i (archived m) then (Response 400 JOther, m)
      else
        (Response 200 (JUpload (UploadJson (Some []) ("batch-" ++ p_name p))),
         m)
  | DELETE_document d i =>
      if mem i (locked m) then (Response 403 JOther, m)
      else
        (Response 204 JOther,
         Memory (datasets m)
           (filter (fun x => negb ((fst x =? d) && (id (snd x) =? i)))
              (documents m))
           (archived m) (locked m))
  | GET_indexing_status _ _ =>
      (Response 200 (JIndexing [IndexingRow 1 1 "completed"]), m)
  end.

(** A service on which a created dataset shows up in the listing only after
    [lag] create requests; its state counts the create requests received. *)
Definition lagging_handle (lag : nat) (q : request) (created : nat)
  : reply * nat :=
  match q with
  | GET_datasets =>
      (Response 200
         (JData (if (lag <=? created)%nat then [Item "ds-1" "catalog"] else [])),
       created)
  | POST_datasets _ => (Response 200 JOther, S created)
  | _ => (Response 200 JOther, created)
  end.

(** A service whose listing of datasets is always empty. *)
Definition blind_handle (q : request) (s : unit) : reply * unit :=
  match q with
  | GET_datasets => (Response 200 (JData []), s)
  | _ => (Response 200 JOther, s)
  end.

(** A service that answers the n-th poll of the indexing status with the
    n-th status of a script, and with ["indexing"] past its end; its state
    counts the polls answered. *)
Definition indexing_handle (script : list string) (q : request) (polled : nat)
  : reply * nat :=
  match q with
  | GET_indexing_status _ _ =>
      (Response 200
         (JIndexing [IndexingRow 10 (Z.of_nat polled)
                       (nth polled script "indexing")]),
       S polled)
  | _ => (Response 200 JOther, polled)
  end.

(** A service with one dataset and a fixed listing of documents that
    answers every write with a fixed status; its answers to create and
    update carry a batch and no document. *)
Definition fixed_handle (docs : list item) (write_status : Z)
  (q : request) (s : unit) : reply * unit :=
  match q with
  | GET_datasets => (Response 200 (JData [Item "ds-1" "catalog"]), s)
  | GET_documents _ _ => (Response 200 (JData docs), s)
  | POST_datasets _ => (Response 200 JOther, s)
  | POST_create_by_text _ p
  | POST_update_by_text _ _ p =>
      (Response write_status (JUpload (UploadJson None ("batch-" ++ p_name p))),
       s)
  | DELETE_document _ _ => (Response write_status JOther, s)
  | GET_indexing_status _ _ => (Response 200 JOther, s)
  end.

(** A service with one dataset and a fixed listing of documents that
    accepts every delete and refuses every create-by-text. *)
Definition create_refusing_handle (docs : list item)
  (q : request) (s : unit) : reply * unit :=
  match q with
  | GET_datasets => (Response 200 (JData [Item "ds-1" "catalog"]), s)
  | GET_documents _ _ => (Response 200 (JData docs), s)
  | POST_create_by_text _ _ => (Response 500 JOther, s)
  | DELETE_document _ _ => (Response 204 NotJson, s)
  | _ => (Response 200 JOther, s)
  end.

(** The instance built with the default separator. *)
Definition fire_drop : DifyFireDrop := __init__ None.

(** The empty in-memory service. *)
Definition empty_memory : memory := Memory [] [] [] [].

(** A dataset "catalog" holding "a.txt", which is archived. *)
Definition archived_memory : memory :=
  Memory [Item "ds-catalog" "catalog"]
    [("ds-catalog", Item "doc-a" "a.txt")] ["doc-a"] [].

(** A dataset "catalog" with five documents, two of which cannot be
    deleted. *)
Definition locked_memory : memory :=
  Memory [Item "ds-catalog" "catalog"]
    [("ds-catalog", Item "doc-a" "a.txt");
     ("ds-catalog", Item "doc-b" "b.txt");
     ("ds-catalog", Item "doc-c" "c.txt");
     ("ds-catalog", Item "doc-d" "d.txt");
     ("ds-catalog", Item "doc-e" "e.txt")] [] ["doc-b"; "doc-d"].

(** ** The states a service goes through under repeated calls *)

(** The state left by one resolution attempt that did not find the name:
    the listing, then the create request of line 123. *)
Definition retry_state {remote} (handle : request -> remote -> reply * remote)
  (db_name : string) (s : remote) : remote :=
  snd (handle (POST_datasets db_name) (snd (handle GET_datasets s))).

Fixpoint after_retries {remote} (handle : request -> remote -> reply * remote)
  (db_name : string) (k : nat) (s : remote) : remote :=
  match k with
  | O => s
  | S k' => after_retries handle db_name k' (retry_state handle db_name s)
  end.

(** The datasets listed at a state, when the answer is a listing. *)
Definition listing_at {remote} (handle : request -> remote -> reply * remote)
  (s : remote) : option (list item) :=
  match fst (handle GET_datasets s) with
  | Response _ (JData l) => Some l
  | _ => None
  end.

(** At [s] the listing does not contain [db_name] and the create request
    that follows is answered with a JSON body. *)
Definition attempt_misses {remote}
  (handle : request -> remote -> reply * remote)
  (db_name : string) (s : remote) : bool :=
  match handle GET_datasets s with
  | (Response _ (JData l), s1) =>
      match find (fun d => name d =? db_name) l with
      | Some _ => false
      | None =>
          match fst (handle (POST_datasets db_name) s1) with
          | Response _ NotJson => false
          | Response _ _ => true
          | TransportFailure => false
          end
      end
  | _ => false
  end.

(** The body that answers the create request of an attempt started at [s]. *)
Definition creation_answer {remote}
  (handle : request -> remote -> reply * remote)
  (db_name : string) (s : remote) : body :=
  match fst (handle (POST_datasets db_name) (snd (handle GET_datasets s))) with
  | Response _ answer => answer
  | TransportFailure => NotJson
  end.

(** One failed attempt of [_hook_knowledge_dataset], as requests. *)
Definition one_retry (db_name : string) : list request :=
  [GET_datasets; POST_datasets db_name].

(** A run observed after the events [evs]. *)
Definition prepend {remote A} (evs : list event) (r : run remote A)
  : run remote A :=
  Run (result r) (evs ++ emitted r) (after r).

(** The state left by one poll of the indexing status. *)
Definition poll_state {remote} (handle : request -> remote -> reply * remote)
  (dataset_id batch : string) (s : remote) : remote :=
  snd (handle (GET_indexing_status dataset_id batch) s).

Fixpoint after_polls {remote} (handle : request -> remote -> reply * remote)
  (dataset_id batch : string) (k : nat) (s : remote) : remote :=
  match k with
  | O => s
  | S k' =>
      after_polls handle dataset_id batch k'
        (poll_state handle dataset_id batch s)
  end.

(** The status a poll at [s] returns, when it returns one. *)
Definition status_at {remote} (handle : request -> remote -> reply * remote)
  (dataset_id batch : string) (s : remote) : option string :=
  match fst (handle (GET_indexing_status dataset_id batch) s) with
  | Response _ (JIndexing (row :: _)) => Some (indexing_status row)
  | _ => None
  end.

(** One iteration of the loop of [_sync_indexing_status], as observed. *)
Definition one_poll (dataset_id batch : string) : list event :=
  [Http (GET_indexing_status dataset_id batch); Sleep 1].

(** The values the [for] of [embed_knowledge] appends to [response_seq],
    document by document: [resps] are the results of the successive loop
    bodies, each run from the state the previous one left. *)
Fixpoint loop_entries {remote} (handle : request -> remote -> reply * remote)
  (self : DifyFireDrop) (dataset_id : string) (force_override : bool)
  (tasks : list (string * string)) (s : remote)
  (resps : list (option UploadDocumentResponse)) : Prop :=
  match tasks, resps with
  | [], [] => True
  | (table_name, knowledge_card) :: tasks', resp :: resps' =>
      let r := embed_one handle self dataset_id force_override table_name
                 knowledge_card s in
      result r = Ret resp /\
      loop_entries handle self dataset_id force_override tasks' (after r)
        resps'
  | _, _ => False
  end.

(** What a create-by-text gives, by the answer it gets. *)
Definition created (rep : reply) : outcome UploadDocumentResponse :=
  match rep with
  | Response st b =>
      if is_success st then
        match b with
        | JUpload j => Ret (validate_upload j)
        | NotJson => Raise JSONDecodeError
        | _ => Raise ValidationError
        end
      else Raise (HTTPStatusError st)
  | TransportFailure => Raise TransportError
  end.

(** The part of an attempt of [_hook_knowledge_dataset] that follows a
    listing without the name: lines 120-126. *)
Definition create_and_retry {remote}
  (handle : request -> remote -> reply * remote)
  (depth : nat) (db_name : string) : M remote string :=
  bind (logger WARNING MsgDatasetMissing)
    (fun _ => bind (send handle (POST_datasets db_name))
       (fun res => bind (json_any res)
          (fun answer => bind (logger SUCCESS (MsgDatasetCreated answer))
             (fun _ => _hook_knowledge_dataset handle depth db_name)))).

(** ** Construction of the instance *)





(** ** Classes of requests *)

Definition is_delete (q : request) : bool :=
  match q with DELETE_document _ _ => true | _ => false end.

Definition is_indexing_poll (q : request) : bool :=
  match q with GET_indexing_status _ _ => true | _ => false end.

(** Create-by-text and update-by-text. *)
Definition is_document_write (q : request) : bool :=
  match q with
  | POST_create_by_text _ _ | POST_update_by_text _ _ _ => true
  | _ => false
  end.

(** The listing of documents with a keyword, line 142 called from line 129. *)
Definition is_locate (q : request) : bool :=
  match q with GET_documents _ (Some _) => true | _ => false end.

(** The keyword of a locator request. *)
Definition keyword_of (q : request) : option string :=
  match q with GET_documents _ keyword => keyword | _ => None end.

(** The dataset a request on documents addresses. *)
Definition dataset_of (q : request) : option string :=
  match q with
  | GET_documents d _ | POST_create_by_text d _ | POST_update_by_text d _ _
  | DELETE_document d _ | GET_indexing_status d _ => Some d
  | GET_datasets | POST_datasets _ => None
  end.

(** At [s] the service lists, for the keyword [table_name], documents of
    which [d] is the first one named [table_name + ".txt"], and the
    identifier of [d] is not empty. *)
Definition located {remote} (handle : request -> remote -> reply * remote)
  (dataset_id table_name : string) (s : remote) (d : item) : Prop :=
  exists st docs s1,
    handle (GET_documents dataset_id (Some table_name)) s
    = (Response st (JData docs), s1) /\
    find (fun x => name x =? (table_name ++ ".txt")%string) docs = Some d /\
    truthy (id d) = true.

(** What the loop of [embed_knowledge] may issue for the mapping [tasks] on
    the dataset [dataset_id]. *)
Definition embed_request_ok (self : DifyFireDrop) (dataset_id : string)
  (force_override : bool) (tasks : list (string * string)) (q : request)
  : Prop :=
  match q with
  | GET_documents d (Some t) => d = dataset_id /\ In t (map fst tasks)
  | POST_create_by_text d p =>
      d = dataset_id /\
      exists t c, In (t, c) tasks /\ p = _document_preprocess_payload self t c
  | POST_update_by_text d _ p =>
      d = dataset_id /\ force_override = false /\
      exists t c, In (t, c) tasks /\ p = _document_preprocess_payload self t c
  | DELETE_document d _ => d = dataset_id /\ force_override = true
  | _ => False
  end.

(** The requests of dataset resolution for [db_name]. *)
Definition is_resolution (db_name : string) (q : request) : bool :=
  match q with
  | GET_datasets => true
  | POST_datasets n => n =? db_name
  | _ => false
  end.

(** [res.json()["data"]] as a value: what [json_data] gives for a body. *)
Definition listing_of (b : body) : outcome (list item) :=
  match b with
  | JData l => Ret l
  | JIndexing [] => Ret []
  | JIndexing (_ :: _) => Raise KeyError
  | JUpload _ => Raise KeyError
  | JOther => Raise KeyError
  | NotJson => Raise JSONDecodeError
  end.

(** A service with one dataset and a fixed listing of documents, on which
    the delete of the document [broken] fails in the transport and every
    other delete succeeds. *)
Definition unreachable_handle (docs : list item) (broken : string)
  (q : request) (s : unit) : reply * unit :=
  match q with
  | GET_datasets => (Response 200 (JData [Item "ds-1" "catalog"]), s)
  | GET_documents _ _ => (Response 200 (JData docs), s)
  | DELETE_document _ i =>
      if i =? broken then (TransportFailure, s) else (Response 204 NotJson, s)
  | _ => (Response 200 JOther, s)
  end.

(** The error record of line 77. *)
Definition is_update_failure (e : event) : bool :=
  match e with Log ERROR (MsgUpdateFailed _) => true | _ => false end.

(** The entries of [response_seq] that are [None]. *)
Definition is_none (resp : option UploadDocumentResponse) : bool :=
  match resp with None => true | Some _ => false end.

(** * Properties of the client *)

Lemma requests_app (a b : list event) :
  requests (a ++ b) = requests a ++ requests b.
Proof.
  induction a as [|e a IH]; simpl; [reflexivity|].
  destruct e; simpl; rewrite IH; reflexivity.
Qed.

Section Facts.

Variable remote : Type.
Variable handle : request -> remote -> reply * remote.
Variable self : DifyFireDrop.

Lemma run_eta {A} (r : run remote A) :
  r = Run (result r) (emitted r) (after r).
Proof. destruct r; reflexivity. Qed.

Lemma send_response q s st b s' :
  handle q s = (Response st b, s') ->
  send handle q s = Run (Ret (st, b)) [Http q] s'.
Proof. intros H; unfold send; rewrite H; reflexivity. Qed.

Lemma send_failure q s s' :
  handle q s = (TransportFailure, s') ->
  send handle q s = Run (Raise TransportError) [Http q] s'.
Proof. intros H; unfold send; rewrite H; reflexivity. Qed.

Lemma bind_assoc {A B C} (m : M remote A) (k : A -> M remote B)
  (h : B -> M remote C) (s : remote) :
  bind (bind m k) h s = bind m (fun a => bind (k a) h) s.
Proof.
  unfold bind; simpl.
  destruct (result (m s)); simpl; try reflexivity.
  destruct (result (k a (after (m s)))); simpl; try reflexivity.
  rewrite app_assoc; reflexivity.
Qed.

Lemma bind_ext {A B} (m : M remote A) (k k' : A -> M remote B) (s : remote) :
  (forall a s', k a s' = k' a s') ->
  bind m k s = bind m k' s.
Proof.
  intros H. unfold bind. destruct (result (m s)); try reflexivity.
  rewrite H. reflexivity.
Qed.

Lemma bind_ret_r {A} (m : M remote A) (s : remote) :
  bind m (fun a => ret a) s = m s.
Proof.
  unfold bind. destruct (m s) as [[a|e|] evs s']; cbn;
    rewrite ?app_nil_r; reflexivity.
Qed.

Lemma bind_ret_run {A B} (m : M remote A) (k : A -> M remote B) s a evs s' :
  m s = Run (Ret a) evs s' ->
  bind m k s = prepend evs (k a s').
Proof. intros H; unfold bind, prepend; rewrite H; reflexivity. Qed.

Lemma bind_raise_run {A B} (m : M remote A) (k : A -> M remote B) s e evs s' :
  m s = Run (Raise e) evs s' ->
  bind m k s = Run (Raise e) evs s'.
Proof. intros H; unfold bind; rewrite H; reflexivity. Qed.

Lemma bind_send_response {B} q (k : Z * body -> M remote B) s st b s' :
  handle q s = (Response st b, s') ->
  bind (send handle q) k s = prepend [Http q] (k (st, b) s').
Proof.
  intros H. exact (bind_ret_run _ _ _ _ _ _ (send_response _ _ _ _ _ H)).
Qed.

Lemma bind_send_failure {B} q (k : Z * body -> M remote B) s s' :
  handle q s = (TransportFailure, s') ->
  bind (send handle q) k s = Run (Raise TransportError) [Http q] s'.
Proof.
  intros H. exact (bind_raise_run _ _ _ _ _ _ (send_failure _ _ _ H)).
Qed.

Lemma bind_logger {B} lvl msg (k : unit -> M remote B) s :
  bind (logger lvl msg) k s = prepend [Log lvl msg] (k tt s).
Proof. reflexivity. Qed.

Lemma bind_sleep {B} n (k : unit -> M remote B) s :
  bind (sleep n) k s = prepend [Sleep n] (k tt s).
Proof. reflexivity. Qed.

Lemma bind_ret_value {A B} (a : A) (k : A -> M remote B) s :
  bind (ret a) k s = k a s.
Proof. unfold bind; simpl. destruct (k a s); reflexivity. Qed.

Lemma prepend_prepend {A} evs evs' (r : run remote A) :
  prepend evs (prepend evs' r) = prepend (evs ++ evs') r.
Proof. unfold prepend; simpl. rewrite app_assoc. reflexivity. Qed.

Lemma result_prepend {A} evs (r : run remote A) :
  result (prepend evs r) = result r.
Proof. reflexivity. Qed.

Lemma after_prepend {A} evs (r : run remote A) :
  after (prepend evs r) = after r.
Proof. reflexivity. Qed.

Lemma emitted_prepend {A} evs (r : run remote A) :
  emitted (prepend evs r) = evs ++ emitted r.
Proof. reflexivity. Qed.


Lemma json_data_items st l : @json_data remote (st, JData l) = ret l.
Proof. reflexivity. Qed.

Lemma raise_for_status_ok st b :
  is_success st = true -> @raise_for_status remote (st, b) = ret tt.
Proof. intros H; unfold raise_for_status; simpl; rewrite H; reflexivity. Qed.

Lemma raise_for_status_error st b :
  is_success st = false ->
  @raise_for_status remote (st, b) = raise (HTTPStatusError st).
Proof. intros H; unfold raise_for_status; simpl; rewrite H; reflexivity. Qed.

(** *** Dataset resolution *)

Lemma hook_found depth db_name s st l s' d :
  handle GET_datasets s = (Response st (JData l), s') ->
  first_named db_name l = Some d ->
  _hook_knowledge_dataset handle (S depth) db_name s
  = Run (Ret (id d))
      [Http GET_datasets; Log SUCCESS (MsgDatasetId db_name (id d))] s'.
Proof.
  intros Hl Hf; simpl.
  rewrite (bind_send_response _ _ _ _ _ _ Hl), json_data_items.
  rewrite bind_ret_value, Hf, bind_logger. reflexivity.
Qed.

Lemma create_and_retry_run depth db_name s1 :
  (exists st b, fst (handle (POST_datasets db_name) s1) = Response st b /\
     b <> NotJson /\
     create_and_retry handle depth db_name s1
     = prepend [Log WARNING MsgDatasetMissing; Http (POST_datasets db_name);
                Log SUCCESS (MsgDatasetCreated b)]
         (_hook_knowledge_dataset handle depth db_name
            (snd (handle (POST_datasets db_name) s1)))) \/
  (exists e, result (create_and_retry handle depth db_name s1) = Raise e /\
     (fst (handle (POST_datasets db_name) s1) = TransportFailure \/
      exists st, fst (handle (POST_datasets db_name) s1) = Response st NotJson)).
Proof.
  unfold create_and_retry. rewrite bind_logger.
  destruct (handle (POST_datasets db_name) s1) as [[st2 b2|] s2] eqn:Hp.
  2:{ rewrite (bind_send_failure _ _ _ _ Hp).
      right; eexists; split; [reflexivity|]. left; reflexivity. }
  rewrite (bind_send_response _ _ _ _ _ _ Hp).
  destruct b2; unfold json_any; cbn [snd];
    try (left; exists st2; eexists; split; [reflexivity|];
         split; [discriminate|];
         rewrite bind_ret_value, bind_logger, !prepend_prepend; reflexivity).
  right; eexists; split; [reflexivity|]. right; eexists; reflexivity.
Qed.

Lemma hook_missing depth db_name s :
  attempt_misses handle db_name s = true ->
  _hook_knowledge_dataset handle (S depth) db_name s
  = prepend
      [Http GET_datasets; Log WARNING MsgDatasetMissing;
       Http (POST_datasets db_name);
       Log SUCCESS (MsgDatasetCreated (creation_answer handle db_name s))]
      (_hook_knowledge_dataset handle depth db_name
         (retry_state handle db_name s)).
Proof.
  unfold attempt_misses, retry_state, creation_answer; intros H.
  destruct (handle GET_datasets s) as [[st b|] s1] eqn:Hl; try discriminate.
  destruct b as [l| | | |]; try discriminate.
  destruct (find (fun d => name d =? db_name) l) eqn:Hf; try discriminate.
  simpl snd. simpl.
  rewrite (bind_send_response _ _ _ _ _ _ Hl), json_data_items.
  rewrite bind_ret_value. unfold first_named; rewrite Hf.
  fold (create_and_retry handle depth db_name).
  destruct (create_and_retry_run depth db_name s1)
    as [(st2 & b2 & Hp & Hb & ->)|(e & _ & [Hp|[st2 Hp]])].
  - rewrite prepend_prepend, Hp. reflexivity.
  - rewrite Hp in H; discriminate.
  - rewrite Hp in H; discriminate.
Qed.

Lemma hook_exhausts db_name k : forall s,
  (forall j, j < k ->
     attempt_misses handle db_name (after_retries handle db_name j s) = true) ->
  let r := _hook_knowledge_dataset handle k db_name s in
  result r = OutOfFuel /\
  requests (emitted r) = List.concat (repeat (one_retry db_name) k) /\
  after r = after_retries handle db_name k s.
Proof.
  induction k as [|k IH]; intros s Hmiss.
  - simpl; auto.
  - rewrite hook_missing by (apply (Hmiss 0); lia).
    destruct (IH (retry_state handle db_name s)) as (Hr & Hq & Ha).
    { intros j Hj; apply (Hmiss (S j)); lia. }
    cbv zeta.
    rewrite result_prepend, emitted_prepend, after_prepend, requests_app, Hq.
    simpl; auto.
Qed.

Lemma hook_finds_after db_name k : forall s l d depth,
  (forall j, j < k ->
     attempt_misses handle db_name (after_retries handle db_name j s) = true) ->
  listing_at handle (after_retries handle db_name k s) = Some l ->
  first_named db_name l = Some d ->
  k < depth ->
  let r := _hook_knowledge_dataset handle depth db_name s in
  result r = Ret (id d) /\
  requests (emitted r)
  = List.concat (repeat (one_retry db_name) k) ++ [GET_datasets].
Proof.
  induction k as [|k IH]; intros s l d depth Hmiss Hl Hf Hd.
  - destruct depth as [|depth]; [lia|].
    simpl in Hl. unfold listing_at in Hl.
    destruct (handle GET_datasets s) as [[st b|] s1] eqn:Hg; try discriminate.
    destruct b; try discriminate. simpl in Hl; injection Hl as ->.
    rewrite (hook_found _ _ _ _ _ _ _ Hg Hf); simpl; auto.
  - destruct depth as [|depth]; [lia|].
    rewrite hook_missing by (apply (Hmiss 0); lia).
    destruct (IH (retry_state handle db_name s) l d depth) as (Hr & Hq); auto.
    { intros j Hj; apply (Hmiss (S j)); lia. }
    { lia. }
    cbv zeta.
    rewrite result_prepend, emitted_prepend, requests_app, Hq.
    simpl; auto.
Qed.

(** C2, as the code has it: [_hook_knowledge_dataset] has no retry cap.
    Every attempt whose listing lacks the name issues one create-dataset
    request and resolves again.  When the first [k] listings lack the name,
    a recursion depth of [k] is used up after exactly [k] create requests
    and nothing is returned; when the listing that follows contains the
    name, every larger depth returns its identifier after exactly [k]
    create requests and [k + 1] listings. *)
Theorem hook_knowledge_dataset_retries_unbounded :
  forall (db_name : string) (k : nat) (s : remote),
    (forall j, j < k ->
       attempt_misses handle db_name (after_retries handle db_name j s)
       = true) ->
    (let r := _hook_knowledge_dataset handle k db_name s in
     result r = OutOfFuel /\
     requests (emitted r) = List.concat (repeat (one_retry db_name) k)) /\
    (forall l d depth,
       listing_at handle (after_retries handle db_name k s) = Some l ->
       first_named db_name l = Some d ->
       k < depth ->
       let r := _hook_knowledge_dataset handle depth db_name s in
       result r = Ret (id d) /\
       requests (emitted r)
       = List.concat (repeat (one_retry db_name) k) ++ [GET_datasets]).
Proof.
  intros db_name k s Hmiss; split.
  - destruct (hook_exhausts db_name k s Hmiss) as (Hr & Hq & _); auto.
  - intros l d depth Hl Hf Hd.
    exact (hook_finds_after db_name k s l d depth Hmiss Hl Hf Hd).
Qed.

(** How one attempt of the resolution ends, by the answers it gets. *)
Lemma hook_step db_name depth s :
  let r := _hook_knowledge_dataset handle (S depth) db_name s in
  (exists st l d,
     handle GET_datasets s = (Response st (JData l), after r) /\
     first_named db_name l = Some d /\ result r = Ret (id d)) \/
  (result r
   = result (_hook_knowledge_dataset handle depth db_name
               (retry_state handle db_name s)) /\
   after r
   = after (_hook_knowledge_dataset handle depth db_name
              (retry_state handle db_name s))) \/
  (exists e, result r = Raise e).
Proof.
  cbv zeta. unfold retry_state. simpl.
  destruct (handle GET_datasets s) as [[st b|] s1] eqn:Hg.
  2:{ rewrite (bind_send_failure _ _ _ _ Hg).
      right; right; eexists; reflexivity. }
  rewrite (bind_send_response _ _ _ _ _ _ Hg).
  fold (create_and_retry handle depth db_name).
  simpl snd.
  pose proof (create_and_retry_run depth db_name s1) as Hmiss.
  destruct b as [l|rows|u| |]; unfold json_data; cbn [snd];
    try (right; right; eexists; reflexivity).
  - rewrite bind_ret_value.
    destruct (first_named db_name l) as [d|] eqn:Hf.
    + rewrite bind_logger.
      left. exists st, l, d. simpl. auto.
    + right. destruct Hmiss as [(st2 & b2 & Hp & Hb & ->)|(e & He & _)].
      * left. simpl. auto.
      * right. exists e. simpl; auto.
  - destruct rows; try (right; right; eexists; reflexivity).
    rewrite bind_ret_value. cbn [first_named find].
    right. destruct Hmiss as [(st2 & b2 & Hp & Hb & ->)|(e & He & _)].
    * left. simpl. auto.
    * right. exists e. simpl; auto.
Qed.

(** A resolution that returned has just read a listing in which the name
    is present under the identifier returned. *)
Lemma hook_returns_listed db_name depth : forall s i,
  (forall s0, snd (handle GET_datasets s0) = s0) ->
  result (_hook_knowledge_dataset handle depth db_name s) = Ret i ->
  exists st l d,
    handle GET_datasets (after (_hook_knowledge_dataset handle depth db_name s))
    = (Response st (JData l),
       after (_hook_knowledge_dataset handle depth db_name s)) /\
    first_named db_name l = Some d /\ id d = i.
Proof.
  induction depth as [|depth IH]; intros s i Hread Hret.
  - discriminate.
  - destruct (hook_step db_name depth s)
      as [(st & l & d & Hg & Hf & Hr)|[(Hr & Ha)|(e & He)]].
    + exists st, l, d. rewrite Hr in Hret. injection Hret as <-.
      pose proof (Hread s) as Hs. rewrite Hg in Hs. cbn [snd] in Hs.
      rewrite Hs. rewrite Hs in Hg. auto.
    + rewrite Hr in Hret. rewrite Ha. apply IH; auto.
    + rewrite He in Hret; discriminate.
Qed.

(** C9: when listing the datasets does not change the state of the service,
    a resolution that returned an identifier is followed by a resolution
    that returns the same identifier after one listing and no other
    request, and leaves the service as it found it. *)
Theorem hook_knowledge_dataset_idempotent :
  (forall s, snd (handle GET_datasets s) = s) ->
  forall (db_name : string) (depth depth' : nat) (s : remote) (i : string),
    result (_hook_knowledge_dataset handle depth db_name s) = Ret i ->
    let s1 := after (_hook_knowledge_dataset handle depth db_name s) in
    let r2 := _hook_knowledge_dataset handle (S depth') db_name s1 in
    result r2 = Ret i /\
    requests (emitted r2) = [GET_datasets] /\
    filter is_create_dataset (requests (emitted r2)) = [] /\
    after r2 = s1.
Proof.
  intros Hread db_name depth depth' s i Hret.
  destruct (hook_returns_listed db_name depth s i Hread Hret)
    as (st & l & d & Hg & Hf & <-).
  cbv zeta.
  rewrite (hook_found _ _ _ _ _ _ _ Hg Hf); simpl; auto.
Qed.

(** C5: on the empty mapping [embed_knowledge] writes the error record of
    line 186, issues no request at all (no resolution, no read, no write),
    leaves the service untouched and returns [None]. *)
Theorem embed_knowledge_empty_input :
  forall (depth : nat) (db_name : string) (force_override : bool)
    (s : remote),
    let r := embed_knowledge handle self depth [] db_name force_override s in
    r = Run (Ret None) [Log ERROR MsgEmptyInput] s /\
    requests (emitted r) = [].
Proof. intros; split; reflexivity. Qed.

(** *** The indexing monitor *)

Lemma sync_step polls dataset_id batch s status :
  status_at handle dataset_id batch s = Some status ->
  _sync_indexing_status handle (S polls) dataset_id batch s
  = prepend (one_poll dataset_id batch)
      (if terminal_status status
       then Run (Ret tt) [] (poll_state handle dataset_id batch s)
       else _sync_indexing_status handle polls dataset_id batch
              (poll_state handle dataset_id batch s)).
Proof.
  unfold status_at, poll_state. intros H.
  destruct (handle (GET_indexing_status dataset_id batch) s)
    as [[st b|] s1] eqn:Hg; try discriminate.
  destruct b as [|[|row rows]| | |]; try discriminate.
  injection H as <-. cbn [snd fst].
  cbn [_sync_indexing_status].
  rewrite (bind_send_response _ _ _ _ _ _ Hg).
  unfold json_first_indexing_row; cbn [snd].
  rewrite bind_ret_value, bind_sleep, prepend_prepend.
  destruct (terminal_status (indexing_status row)); reflexivity.
Qed.

Lemma sync_no_status polls dataset_id batch s :
  status_at handle dataset_id batch s = None ->
  exists e,
    result (_sync_indexing_status handle (S polls) dataset_id batch s)
    = Raise e.
Proof.
  unfold status_at. intros H. cbn [_sync_indexing_status].
  destruct (handle (GET_indexing_status dataset_id batch) s)
    as [[st b|] s1] eqn:Hg.
  - rewrite (bind_send_response _ _ _ _ _ _ Hg).
    cbn [fst] in H.
    destruct b as [[|x l]|[|row rows]| | |]; try discriminate;
      eexists; reflexivity.
  - rewrite (bind_send_failure _ _ _ _ Hg). eexists; reflexivity.
Qed.

Lemma sync_exits_at dataset_id batch k : forall s polls,
  (forall j status, j < k ->
     status_at handle dataset_id batch
       (after_polls handle dataset_id batch j s) = Some status ->
     terminal_status status = false) ->
  (forall j, j < k ->
     status_at handle dataset_id batch
       (after_polls handle dataset_id batch j s) <> None) ->
  (exists status,
     status_at handle dataset_id batch
       (after_polls handle dataset_id batch k s) = Some status /\
     terminal_status status = true) ->
  k < polls ->
  _sync_indexing_status handle polls dataset_id batch s
  = Run (Ret tt) (List.concat (repeat (one_poll dataset_id batch) (S k)))
      (after_polls handle dataset_id batch (S k) s).
Proof.
  induction k as [|k IH]; intros s polls Hbefore Hwf (status & Hst & Hterm) Hlt;
    (destruct polls as [|polls]; [lia|]).
  - cbn [after_polls] in Hst. rewrite (sync_step _ _ _ _ _ Hst), Hterm.
    reflexivity.
  - destruct (status_at handle dataset_id batch s) as [st0|] eqn:H0.
    2:{ exfalso. apply (Hwf 0); [lia|exact H0]. }
    rewrite (sync_step _ _ _ _ _ H0).
    rewrite (Hbefore 0 st0) by (auto; lia).
    rewrite (IH (poll_state handle dataset_id batch s) polls).
    + reflexivity.
    + intros j st Hj; apply (Hbefore (S j)); lia.
    + intros j Hj; apply (Hwf (S j)); lia.
    + exists status; auto.
    + lia.
Qed.

Lemma sync_keeps_polling dataset_id batch polls : forall s,
  (forall j, j < polls ->
     exists status,
       status_at handle dataset_id batch
         (after_polls handle dataset_id batch j s) = Some status /\
       terminal_status status = false) ->
  _sync_indexing_status handle polls dataset_id batch s
  = Run OutOfFuel (List.concat (repeat (one_poll dataset_id batch) polls))
      (after_polls handle dataset_id batch polls s).
Proof.
  induction polls as [|polls IH]; intros s Hnever.
  - reflexivity.
  - destruct (Hnever 0) as (st0 & H0 & Hn0); [lia|].
    cbn [after_polls] in H0.
    rewrite (sync_step _ _ _ _ _ H0), Hn0.
    rewrite (IH (poll_state handle dataset_id batch s)).
    + reflexivity.
    + intros j Hj; apply (Hnever (S j)); lia.
Qed.

Lemma sync_returned_on_terminal dataset_id batch polls : forall s,
  result (_sync_indexing_status handle polls dataset_id batch s) = Ret tt ->
  exists k status,
    k < polls /\
    status_at handle dataset_id batch
      (after_polls handle dataset_id batch k s) = Some status /\
    terminal_status status = true.
Proof.
  induction polls as [|polls IH]; intros s Hret.
  - discriminate.
  - destruct (status_at handle dataset_id batch s) as [st0|] eqn:H0.
    + rewrite (sync_step _ _ _ _ _ H0) in Hret.
      destruct (terminal_status st0) eqn:Ht.
      * exists 0, st0. repeat split; auto; lia.
      * rewrite result_prepend in Hret.
        destruct (IH _ Hret) as (k & status & Hk & Hs & Hterm).
        exists (S k), status. repeat split; auto; lia.
    + destruct (sync_no_status polls dataset_id batch s H0) as (e & He).
      rewrite He in Hret; discriminate.
Qed.

Lemma sync_returns_by dataset_id batch k : forall s,
  (forall j, j < k ->
     status_at handle dataset_id batch
       (after_polls handle dataset_id batch j s) <> None) ->
  (exists status,
     status_at handle dataset_id batch
       (after_polls handle dataset_id batch k s) = Some status /\
     terminal_status status = true) ->
  result (_sync_indexing_status handle (S k) dataset_id batch s) = Ret tt.
Proof.
  induction k as [|k IH]; intros s Hwf (status & Hst & Hterm).
  - cbn [after_polls] in Hst. rewrite (sync_step _ _ _ _ _ Hst), Hterm.
    reflexivity.
  - destruct (status_at handle dataset_id batch s) as [st0|] eqn:H0.
    2:{ exfalso. apply (Hwf 0); [lia|exact H0]. }
    rewrite (sync_step _ _ _ _ _ H0), result_prepend.
    destruct (terminal_status st0); [reflexivity|].
    apply IH.
    + intros j Hj; apply (Hwf (S j)); lia.
    + exists status; auto.
Qed.

(** C6: when every poll returns a status, the loop of
    [_sync_indexing_status] ends if and only if some poll returns
    ["completed"] or ["error"]; it ends right after the first such poll,
    having paused one second after every poll; and when no poll ever returns
    such a status it is still polling after any number of iterations. *)
Theorem sync_indexing_status_terminates_iff :
  forall (dataset_id batch : string) (s : remote),
    (forall k,
       status_at handle dataset_id batch
         (after_polls handle dataset_id batch k s) <> None) ->
    ((exists polls,
        result (_sync_indexing_status handle polls dataset_id batch s)
        = Ret tt) <->
     (exists k status,
        status_at handle dataset_id batch
          (after_polls handle dataset_id batch k s) = Some status /\
        terminal_status status = true)) /\
    (forall k polls,
       (forall j status, j < k ->
          status_at handle dataset_id batch
            (after_polls handle dataset_id batch j s) = Some status ->
          terminal_status status = false) ->
       (exists status,
          status_at handle dataset_id batch
            (after_polls handle dataset_id batch k s) = Some status /\
          terminal_status status = true) ->
       k < polls ->
       _sync_indexing_status handle polls dataset_id batch s
       = Run (Ret tt)
           (List.concat (repeat (one_poll dataset_id batch) (S k)))
           (after_polls handle dataset_id batch (S k) s)) /\
    ((forall k status,
        status_at handle dataset_id batch
          (after_polls handle dataset_id batch k s) = Some status ->
        terminal_status status = false) ->
     forall polls,
       _sync_indexing_status handle polls dataset_id batch s
       = Run OutOfFuel
           (List.concat (repeat (one_poll dataset_id batch) polls))
           (after_polls handle dataset_id batch polls s)).
Proof.
  intros dataset_id batch s Hwf. split; [split|split].
  - intros (polls & Hret).
    destruct (sync_returned_on_terminal _ _ _ _ Hret)
      as (k & status & _ & Hs & Ht).
    exists k, status; auto.
  - intros (k & status & Hs & Ht).
    exists (S k). apply sync_returns_by; [auto|exists status; auto].
  - intros k polls Hbefore Hterm Hlt.
    apply sync_exits_at; auto.
  - intros Hnever polls. apply sync_keeps_polling.
    intros j _.
    destruct (status_at handle dataset_id batch
                (after_polls handle dataset_id batch j s)) as [st|] eqn:Hs.
    + exists st; split; [reflexivity|]. apply (Hnever j); exact Hs.
    + exfalso; apply (Hwf j); exact Hs.
Qed.

(** *** One document *)

Lemma list_documents_answered dataset_id keyword s st b s1 :
  handle (GET_documents dataset_id keyword) s = (Response st b, s1) ->
  _list_documents handle dataset_id keyword s
  = prepend [Http (GET_documents dataset_id keyword)] (json_data (st, b) s1).
Proof.
  intros H. unfold _list_documents.
  rewrite (bind_send_response _ _ _ _ _ _ H). f_equal.
  apply bind_ret_r.
Qed.

Lemma json_data_run st b (s : remote) :
  (exists docs, json_data (st, b) s = Run (Ret docs) [] s /\
     (b = JData docs \/ (b = JIndexing [] /\ docs = []))) \/
  (exists e, json_data (st, b) s = Run (Raise e) [] s).
Proof.
  destruct b as [docs|[|row rows]|u| |]; cbn;
    try (right; eexists; reflexivity);
    left; eexists; (split; [reflexivity|]); auto.
Qed.

Lemma list_documents_run dataset_id keyword s st docs s1 :
  handle (GET_documents dataset_id keyword) s = (Response st (JData docs), s1) ->
  _list_documents handle dataset_id keyword s
  = Run (Ret docs) [Http (GET_documents dataset_id keyword)] s1.
Proof.
  intros H. rewrite (list_documents_answered _ _ _ _ _ _ H). reflexivity.
Qed.

Lemma sync_document_id_listed dataset_id table_name s docs evs s1 :
  _list_documents handle dataset_id (Some table_name) s
  = Run (Ret docs) evs s1 ->
  _sync_document_id handle dataset_id table_name s
  = Run (Ret (option_map id
                (first_named (table_name ++ ".txt")%string docs))) evs s1.
Proof.
  intros H. unfold _sync_document_id.
  rewrite (bind_ret_run _ _ _ _ _ _ H).
  destruct (first_named _ docs); unfold prepend, ret; cbn [result emitted after option_map];
    rewrite app_nil_r; reflexivity.
Qed.

Lemma sync_document_id_run dataset_id table_name s st docs s1 :
  handle (GET_documents dataset_id (Some table_name)) s
  = (Response st (JData docs), s1) ->
  _sync_document_id handle dataset_id table_name s
  = Run (Ret (option_map id
                (first_named (table_name ++ ".txt")%string docs)))
      [Http (GET_documents dataset_id (Some table_name))] s1.
Proof.
  intros H. apply sync_document_id_listed.
  exact (list_documents_run _ _ _ _ _ _ H).
Qed.

(** The locator raises what reading the listing raises. *)
Lemma sync_document_id_raises dataset_id table_name s e evs s1 :
  _list_documents handle dataset_id (Some table_name) s
  = Run (Raise e) evs s1 ->
  _sync_document_id handle dataset_id table_name s = Run (Raise e) evs s1.
Proof.
  intros H. unfold _sync_document_id.
  exact (bind_raise_run _ _ _ _ _ _ H).
Qed.

Lemma list_documents_failure dataset_id keyword s s1 :
  handle (GET_documents dataset_id keyword) s = (TransportFailure, s1) ->
  _list_documents handle dataset_id keyword s
  = Run (Raise TransportError) [Http (GET_documents dataset_id keyword)] s1.
Proof.
  intros H. unfold _list_documents.
  exact (bind_send_failure _ _ _ _ H).
Qed.

Lemma create_run dataset_id table_name text s :
  let q := POST_create_by_text dataset_id
             (_document_preprocess_payload self table_name text) in
  _create_document_by_text handle self dataset_id table_name text s
  = Run (created (fst (handle q s))) [Http q] (snd (handle q s)).
Proof.
  cbv zeta. unfold _create_document_by_text.
  destruct (handle _ s) as [[st b|] s1] eqn:Hq.
  - rewrite (bind_send_response _ _ _ _ _ _ Hq). cbn [fst snd created].
    destruct (is_success st) eqn:Hs.
    + rewrite (raise_for_status_ok _ _ Hs), bind_ret_value.
      destruct b; reflexivity.
    + rewrite (raise_for_status_error _ _ Hs). reflexivity.
  - rewrite (bind_send_failure _ _ _ _ Hq). reflexivity.
Qed.

Lemma create_some_run dataset_id table_name text s :
  let q := POST_create_by_text dataset_id
             (_document_preprocess_payload self table_name text) in
  bind (_create_document_by_text handle self dataset_id table_name text)
    (fun response => ret (Some response)) s
  = Run (match created (fst (handle q s)) with
         | Ret u => Ret (Some u)
         | Raise e => Raise e
         | OutOfFuel => OutOfFuel
         end) [Http q] (snd (handle q s)).
Proof.
  cbv zeta. unfold bind. rewrite create_run. cbn [result emitted after].
  destruct (created _); reflexivity.
Qed.

Lemma delete_run dataset_id document_id s :
  let q := DELETE_document dataset_id document_id in
  _delete_document handle dataset_id document_id s
  = Run (match fst (handle q s) with
         | Response st _ =>
             if is_success st then Ret tt else Raise (HTTPStatusError st)
         | TransportFailure => Raise TransportError
         end) [Http q] (snd (handle q s)).
Proof.
  cbv zeta. unfold _delete_document.
  destruct (handle _ s) as [[st b|] s1] eqn:Hq.
  - rewrite (bind_send_response _ _ _ _ _ _ Hq). cbn [fst snd].
    unfold raise_for_status; cbn [fst].
    destruct (is_success st); reflexivity.
  - rewrite (bind_send_failure _ _ _ _ Hq). reflexivity.
Qed.

Lemma update_failed_run dataset_id document_id table_name text s st b s1 :
  handle (POST_update_by_text dataset_id document_id
            (_document_preprocess_payload self table_name text)) s
  = (Response st b, s1) ->
  is_success st = false ->
  _update_document_by_text handle self dataset_id document_id table_name text s
  = Run (Ret None)
      [Http (POST_update_by_text dataset_id document_id
               (_document_preprocess_payload self table_name text));
       Log ERROR (MsgUpdateFailed table_name)] s1.
Proof.
  intros Hq Hs. unfold _update_document_by_text.
  rewrite (bind_send_response _ _ _ _ _ _ Hq).
  unfold try_except. rewrite (raise_for_status_error _ _ Hs).
  reflexivity.
Qed.

(** What an update-by-text gives and writes, by the answer it gets. *)
Lemma update_run dataset_id document_id table_name text s :
  let q := POST_update_by_text dataset_id document_id
             (_document_preprocess_payload self table_name text) in
  let r := _update_document_by_text handle self dataset_id document_id
             table_name text s in
  after r = snd (handle q s) /\
  requests (emitted r) = [q] /\
  (result r = Ret None ->
   emitted r = [Http q; Log ERROR (MsgUpdateFailed table_name)] /\
   exists st b, fst (handle q s) = Response st b /\ is_success st = false).
Proof.
  cbv zeta. unfold _update_document_by_text.
  destruct (handle _ s) as [[st b|] s1] eqn:Hq.
  - rewrite (bind_send_response _ _ _ _ _ _ Hq). cbn [fst snd].
    unfold try_except.
    destruct (is_success st) eqn:Hs.
    + rewrite (raise_for_status_ok _ _ Hs).
      destruct b; cbn; repeat split; try discriminate.
    + rewrite (raise_for_status_error _ _ Hs). cbn.
      repeat split. exists st, b; auto.
  - rewrite (bind_send_failure _ _ _ _ Hq). cbn.
    repeat split; discriminate.
Qed.

(** *** The loop over the documents *)

Lemma embed_loop_cons dataset_id force tasks acc table_name card s :
  embed_loop handle self dataset_id force ((table_name, card) :: tasks) acc s
  = bind (embed_one handle self dataset_id force table_name card)
      (fun response =>
         embed_loop handle self dataset_id force tasks (acc ++ [response])) s.
Proof. reflexivity. Qed.

Lemma embed_loop_app dataset_id force pre : forall post acc s,
  embed_loop handle self dataset_id force (pre ++ post) acc s
  = bind (embed_loop handle self dataset_id force pre acc)
      (fun acc' => embed_loop handle self dataset_id force post acc') s.
Proof.
  induction pre as [|[t c] pre IH]; intros post acc s.
  - cbn [app embed_loop]. rewrite bind_ret_value. reflexivity.
  - cbn [app embed_loop]. rewrite bind_assoc.
    apply bind_ext. intros response s'. apply IH.
Qed.

(** The loop, once the documents before [table_name] have been processed. *)
Lemma embed_loop_reaches dataset_id force pre table_name card post acc s acc1 :
  result (embed_loop handle self dataset_id force pre acc s) = Ret acc1 ->
  let r0 := embed_loop handle self dataset_id force pre acc s in
  let r1 := embed_one handle self dataset_id force table_name card (after r0) in
  embed_loop handle self dataset_id force
    (pre ++ (table_name, card) :: post) acc s
  = prepend (emitted r0)
      match result r1 with
      | Ret response =>
          prepend (emitted r1)
            (embed_loop handle self dataset_id force post
               (acc1 ++ [response]) (after r1))
      | Raise e => Run (Raise e) (emitted r1) (after r1)
      | OutOfFuel => Run OutOfFuel (emitted r1) (after r1)
      end.
Proof.
  intros Hpre. cbv zeta. rewrite embed_loop_app.
  unfold bind at 1. rewrite Hpre.
  rewrite embed_loop_cons. unfold bind.
  destruct (result (embed_one _ _ _ _ _ _ _)); reflexivity.
Qed.

(** The loop body, once the locator has its listing: the three branches of
    lines 197-210. *)
Lemma embed_one_listed dataset_id force table_name card s st docs s1 :
  handle (GET_documents dataset_id (Some table_name)) s
  = (Response st (JData docs), s1) ->
  embed_one handle self dataset_id force table_name card s
  = prepend [Http (GET_documents dataset_id (Some table_name))]
      (match first_named (table_name ++ ".txt")%string docs with
       | Some d =>
           if truthy (id d) then
             if force then
               bind (_delete_document handle dataset_id (id d))
                 (fun _ =>
                    bind (_create_document_by_text handle self dataset_id
                            table_name card)
                      (fun response => ret (Some response))) s1
             else
               _update_document_by_text handle self dataset_id (id d)
                 table_name card s1
           else
             bind (_create_document_by_text handle self dataset_id
                     table_name card)
               (fun response => ret (Some response)) s1
       | None =>
           bind (_create_document_by_text handle self dataset_id
                   table_name card)
             (fun response => ret (Some response)) s1
       end).
Proof.
  intros H. unfold embed_one.
  rewrite (bind_ret_run _ _ _ _ _ _ (sync_document_id_run _ _ _ _ _ _ H)).
  destruct (first_named _ docs) as [d|]; cbn [option_map]; [|reflexivity].
  destruct (truthy (id d)); [|reflexivity].
  destruct force; reflexivity.
Qed.

Lemma delete_then_create_run dataset_id document_id table_name card s :
  let qd := DELETE_document dataset_id document_id in
  let qc := POST_create_by_text dataset_id
              (_document_preprocess_payload self table_name card) in
  bind (_delete_document handle dataset_id document_id)
    (fun _ =>
       bind (_create_document_by_text handle self dataset_id table_name card)
         (fun response => ret (Some response))) s
  = match fst (handle qd s) with
    | Response st _ =>
        if is_success st then
          Run (match created (fst (handle qc (snd (handle qd s)))) with
               | Ret u => Ret (Some u)
               | Raise e => Raise e
               | OutOfFuel => OutOfFuel
               end) [Http qd; Http qc] (snd (handle qc (snd (handle qd s))))
        else Run (Raise (HTTPStatusError st)) [Http qd] (snd (handle qd s))
    | TransportFailure =>
        Run (Raise TransportError) [Http qd] (snd (handle qd s))
    end.
Proof.
  cbv zeta. unfold bind at 1. rewrite delete_run. cbn [result emitted after].
  destruct (fst (handle (DELETE_document dataset_id document_id) s))
    as [st b|]; [|reflexivity].
  destruct (is_success st); [|reflexivity].
  rewrite create_some_run. reflexivity.
Qed.

(** C3, as the code has it: with the listing of the locator in hand, the
    loop body issues a create-by-text when no listed document is named
    [table_name + ".txt"]; when the first listed document of that name has
    a non-empty identifier, it issues an update-by-text on that identifier
    if [force_override] is false, and if it is true a delete of that
    identifier first, followed by a create-by-text exactly when the delete
    was answered with a success status. *)
Theorem embed_one_dispatch :
  forall (dataset_id table_name card : string) (force_override : bool)
    (s s1 : remote) (st : Z) (docs : list item),
    handle (GET_documents dataset_id (Some table_name)) s
    = (Response st (JData docs), s1) ->
    let r := embed_one handle self dataset_id force_override table_name card
               s in
    let locate := GET_documents dataset_id (Some table_name) in
    let create := POST_create_by_text dataset_id
                    (_document_preprocess_payload self table_name card) in
    (first_named (table_name ++ ".txt")%string docs = None ->
     requests (emitted r) = [locate; create]) /\
    (forall d,
       first_named (table_name ++ ".txt")%string docs = Some d ->
       truthy (id d) = true ->
       force_override = false ->
       requests (emitted r)
       = [locate;
          POST_update_by_text dataset_id (id d)
            (_document_preprocess_payload self table_name card)]) /\
    (forall d,
       first_named (table_name ++ ".txt")%string docs = Some d ->
       truthy (id d) = true ->
       force_override = true ->
       requests (emitted r)
       = locate :: DELETE_document dataset_id (id d) ::
         match fst (handle (DELETE_document dataset_id (id d)) s1) with
         | Response st' _ => if is_success st' then [create] else []
         | TransportFailure => []
         end).
Proof.
  intros dataset_id table_name card force_override s s1 st docs Hl.
  cbv zeta. rewrite (embed_one_listed _ _ _ _ _ _ _ _ Hl).
  repeat split.
  - intros ->. rewrite create_some_run. reflexivity.
  - intros d -> -> ->. rewrite emitted_prepend, requests_app.
    destruct (update_run dataset_id (id d) table_name card s1)
      as (_ & -> & _).
    reflexivity.
  - intros d -> -> ->. rewrite delete_then_create_run.
    destruct (fst (handle (DELETE_document dataset_id (id d)) s1))
      as [st' b'|]; [|reflexivity].
    destruct (is_success st'); reflexivity.
Qed.

(** C4: an update-by-text answered with an error status writes the error
    record of line 77 and returns [None]; and in the batch, wherever the
    document stands in the mapping, the loop goes on with the documents
    after it, [None] appended to [response_seq]: what the batch does from
    there is what the loop does on the remaining documents. *)
Theorem update_failure_is_recovered :
  forall (dataset_id table_name card : string)
    (pre post : list (string * string))
    (acc acc1 : list (option UploadDocumentResponse))
    (s0 s1 s2 : remote) (st st' : Z) (b : body) (docs : list item) (d : item),
    result (embed_loop handle self dataset_id false pre acc s0) = Ret acc1 ->
    handle (GET_documents dataset_id (Some table_name))
      (after (embed_loop handle self dataset_id false pre acc s0))
    = (Response st (JData docs), s1) ->
    first_named (table_name ++ ".txt")%string docs = Some d ->
    truthy (id d) = true ->
    handle (POST_update_by_text dataset_id (id d)
              (_document_preprocess_payload self table_name card)) s1
    = (Response st' b, s2) ->
    is_success st' = false ->
    let update := POST_update_by_text dataset_id (id d)
                    (_document_preprocess_payload self table_name card) in
    _update_document_by_text handle self dataset_id (id d) table_name card s1
    = Run (Ret None) [Http update; Log ERROR (MsgUpdateFailed table_name)] s2
    /\
    embed_loop handle self dataset_id false
      (pre ++ (table_name, card) :: post) acc s0
    = prepend
        (emitted (embed_loop handle self dataset_id false pre acc s0) ++
         [Http (GET_documents dataset_id (Some table_name)); Http update;
          Log ERROR (MsgUpdateFailed table_name)])
        (embed_loop handle self dataset_id false post (acc1 ++ [None]) s2).
Proof.
  intros dataset_id table_name card pre post acc acc1 s0 s1 s2 st st' b docs d
    Hpre Hl Hf Ht Hu Hs.
  cbv zeta.
  pose proof (update_failed_run _ _ _ _ _ _ _ _ Hu Hs) as Hrun.
  split; [exact Hrun|].
  rewrite (embed_loop_reaches _ _ _ table_name card post _ _ _ Hpre).
  rewrite (embed_one_listed _ _ _ _ _ _ _ _ Hl), Hf, Ht, Hrun.
  cbn [result emitted after prepend app].
  rewrite !prepend_prepend. reflexivity.
Qed.

(** C1, as the code has it: only the update path is recovered.  Wherever a
    document stands in the mapping, once its listing is in hand: a
    create-by-text answered with an error status raises [HTTPStatusError]
    out of the loop, be it the create of line 208, issued when the locator
    gave no usable identifier, or the create of line 200, issued after an
    accepted delete; a delete of the force-override path answered with an
    error status raises it as well; and in each case nothing is issued for
    the documents after it.  An update-by-text answered with an error
    status is logged and the loop goes on with the documents after it. *)
Theorem embed_loop_failure_outcomes :
  forall (dataset_id table_name card : string) (force_override : bool)
    (pre post : list (string * string))
    (acc acc1 : list (option UploadDocumentResponse))
    (s0 s1 : remote) (st : Z) (docs : list item),
    result (embed_loop handle self dataset_id force_override pre acc s0)
    = Ret acc1 ->
    handle (GET_documents dataset_id (Some table_name))
      (after (embed_loop handle self dataset_id force_override pre acc s0))
    = (Response st (JData docs), s1) ->
    let r := embed_loop handle self dataset_id force_override
               (pre ++ (table_name, card) :: post) acc s0 in
    let before :=
      emitted (embed_loop handle self dataset_id force_override pre acc s0)
      ++ [Http (GET_documents dataset_id (Some table_name))] in
    let p := _document_preprocess_payload self table_name card in
    (forall st' b s2,
       (forall d,
          first_named (table_name ++ ".txt")%string docs = Some d ->
          truthy (id d) = false) ->
       handle (POST_create_by_text dataset_id p) s1 = (Response st' b, s2) ->
       is_success st' = false ->
       r = Run (Raise (HTTPStatusError st'))
             (before ++ [Http (POST_create_by_text dataset_id p)]) s2) /\
    (forall d st' b s2 st'' b' s3,
       first_named (table_name ++ ".txt")%string docs = Some d ->
       truthy (id d) = true ->
       force_override = true ->
       handle (DELETE_document dataset_id (id d)) s1 = (Response st' b, s2) ->
       is_success st' = true ->
       handle (POST_create_by_text dataset_id p) s2
       = (Response st'' b', s3) ->
       is_success st'' = false ->
       r = Run (Raise (HTTPStatusError st''))
             (before ++
              [Http (DELETE_document dataset_id (id d));
               Http (POST_create_by_text dataset_id p)]) s3) /\
    (forall d st' b s2,
       first_named (table_name ++ ".txt")%string docs = Some d ->
       truthy (id d) = true ->
       force_override = true ->
       handle (DELETE_document dataset_id (id d)) s1 = (Response st' b, s2) ->
       is_success st' = false ->
       r = Run (Raise (HTTPStatusError st'))
             (before ++ [Http (DELETE_document dataset_id (id d))]) s2) /\
    (forall d st' b s2,
       first_named (table_name ++ ".txt")%string docs = Some d ->
       truthy (id d) = true ->
       force_override = false ->
       handle (POST_update_by_text dataset_id (id d) p) s1
       = (Response st' b, s2) ->
       is_success st' = false ->
       r = prepend
             (before ++
              [Http (POST_update_by_text dataset_id (id d) p);
               Log ERROR (MsgUpdateFailed table_name)])
             (embed_loop handle self dataset_id force_override post
                (acc1 ++ [None]) s2)).
Proof.
  intros dataset_id table_name card force_override pre post acc acc1 s0 s1 st
    docs Hpre Hl.
  cbv zeta.
  rewrite (embed_loop_reaches _ _ _ table_name card post _ _ _ Hpre).
  rewrite (embed_one_listed _ _ _ _ _ _ _ _ Hl).
  split; [|split; [|split]].
  - intros st' b s2 Hfalsy Hq Hs.
    assert (Hcreate :
      prepend [Http (GET_documents dataset_id (Some table_name))]
        (bind (_create_document_by_text handle self dataset_id table_name
                 card)
           (fun response => ret (Some response)) s1)
      = Run (Raise (HTTPStatusError st'))
          [Http (GET_documents dataset_id (Some table_name));
           Http (POST_create_by_text dataset_id
                   (_document_preprocess_payload self table_name card))]
          s2).
    { rewrite create_some_run, Hq. cbn [fst snd created]. rewrite Hs.
      reflexivity. }
    destruct (first_named _ docs) as [d|].
    + rewrite (Hfalsy d eq_refl), Hcreate.
      cbn [result emitted after prepend app].
      rewrite <- app_assoc. reflexivity.
    + rewrite Hcreate. cbn [result emitted after prepend app].
      rewrite <- app_assoc. reflexivity.
  - intros d st' b s2 st'' b' s3 -> -> -> Hq Hs Hq' Hs'.
    rewrite delete_then_create_run, Hq. cbn [fst snd]. rewrite Hs, Hq'.
    cbn [fst snd created]. rewrite Hs'.
    cbn [result emitted after prepend app].
    rewrite <- app_assoc. reflexivity.
  - intros d st' b s2 -> -> -> Hq Hs. rewrite delete_then_create_run, Hq.
    cbn [fst snd]. rewrite Hs.
    cbn [result emitted after prepend app].
    rewrite <- app_assoc. reflexivity.
  - intros d st' b s2 -> -> -> Hq Hs.
    rewrite (update_failed_run _ _ _ _ _ _ _ _ Hq Hs).
    cbn [result emitted after prepend app].
    rewrite !prepend_prepend, <- app_assoc. reflexivity.
Qed.

(** *** What the loop collects *)

Lemma embed_loop_entries dataset_id force tasks : forall acc s seq,
  result (embed_loop handle self dataset_id force tasks acc s) = Ret seq <->
  exists resps,
    seq = acc ++ resps /\
    loop_entries handle self dataset_id force tasks s resps.
Proof.
  induction tasks as [|[t c] tasks IH]; intros acc s seq.
  - cbn. split.
    + intros [= <-]. exists []. rewrite app_nil_r. auto.
    + intros (resps & -> & H). destruct resps; [|contradiction].
      rewrite app_nil_r. reflexivity.
  - rewrite embed_loop_cons. unfold bind.
    destruct (result (embed_one handle self dataset_id force t c s))
      as [resp|e|] eqn:Hone; cbn [result].
    + rewrite IH. split.
      * intros (resps & -> & H). exists (resp :: resps).
        rewrite <- app_assoc. split; [reflexivity|].
        cbn. rewrite Hone. auto.
      * intros (resps & -> & H). destruct resps as [|resp' resps];
          cbn in H; [contradiction|].
        destruct H as [Hr H]. rewrite Hone in Hr. injection Hr as <-.
        exists resps. rewrite <- app_assoc. auto.
    + split; [discriminate|].
      intros (resps & _ & H). destruct resps; cbn in H; [contradiction|].
      destruct H as [Hr _]. rewrite Hone in Hr. discriminate.
    + split; [discriminate|].
      intros (resps & _ & H). destruct resps; cbn in H; [contradiction|].
      destruct H as [Hr _]. rewrite Hone in Hr. discriminate.
Qed.

Lemma loop_entries_length dataset_id force tasks : forall s resps,
  loop_entries handle self dataset_id force tasks s resps ->
  List.length resps = List.length tasks.
Proof.
  induction tasks as [|[t c] tasks IH]; intros s [|resp resps] H;
    cbn in H; try contradiction; [reflexivity|].
  destruct H as [_ H]. cbn. f_equal. eapply IH; eauto.
Qed.

(** The loop body gives [None] only through the handler of line 76: the
    update-by-text of a located document was answered with a status that
    is not a success. *)
Lemma embed_one_none dataset_id force table_name card s :
  result (embed_one handle self dataset_id force table_name card s)
  = Ret None ->
  force = false /\
  exists d st b,
    located handle dataset_id table_name s d /\
    fst (handle (POST_update_by_text dataset_id (id d)
                   (_document_preprocess_payload self table_name card))
           (snd (handle (GET_documents dataset_id (Some table_name)) s)))
    = Response st b /\
    is_success st = false /\
    emitted (embed_one handle self dataset_id force table_name card s)
    = [Http (GET_documents dataset_id (Some table_name));
       Http (POST_update_by_text dataset_id (id d)
               (_document_preprocess_payload self table_name card));
       Log ERROR (MsgUpdateFailed table_name)].
Proof.
  assert (Hcreate : forall s1 evs,
    result (prepend evs
      (bind (_create_document_by_text handle self dataset_id table_name card)
         (fun response => ret (Some response)) s1)) <> Ret None).
  { intros s1 evs. rewrite create_some_run. cbn [result prepend].
    destruct (created _); discriminate. }
  assert (Hlisted : forall docs evs s1,
    _list_documents handle dataset_id (Some table_name) s
    = Run (Ret docs) evs s1 ->
    evs = [Http (GET_documents dataset_id (Some table_name))] ->
    result (embed_one handle self dataset_id force table_name card s)
    = Ret None ->
    force = false /\
    exists d st b,
      first_named (table_name ++ ".txt")%string docs = Some d /\
      truthy (id d) = true /\
      fst (handle (POST_update_by_text dataset_id (id d)
                     (_document_preprocess_payload self table_name card)) s1)
      = Response st b /\
      is_success st = false /\
      emitted (embed_one handle self dataset_id force table_name card s)
      = [Http (GET_documents dataset_id (Some table_name));
         Http (POST_update_by_text dataset_id (id d)
                 (_document_preprocess_payload self table_name card));
         Log ERROR (MsgUpdateFailed table_name)]).
  { intros docs evs s1 Hl ->. unfold embed_one.
    rewrite (bind_ret_run _ _ _ _ _ _ (sync_document_id_listed _ _ _ _ _ _ Hl)).
    destruct (first_named _ docs) as [d|]; cbn [option_map];
      [|intros H; elim (Hcreate _ _ H)].
    destruct (truthy (id d)) eqn:Ht; [|intros H; elim (Hcreate _ _ H)].
    destruct force.
    - rewrite delete_then_create_run. intros H; exfalso; revert H.
      destruct (fst (handle _ s1)) as [st' b'|]; [|discriminate].
      destruct (is_success st'); [|discriminate].
      cbn [result prepend]. destruct (created _); discriminate.
    - rewrite result_prepend, emitted_prepend. intros H.
      destruct (update_run dataset_id (id d) table_name card s1)
        as (_ & _ & Hnone).
      destruct (Hnone H) as (-> & st' & b' & Hq & Hs).
      split; [reflexivity|]. exists d, st', b'. auto. }
  assert (Hraises : forall e evs s1,
    _list_documents handle dataset_id (Some table_name) s
    = Run (Raise e) evs s1 ->
    result (embed_one handle self dataset_id force table_name card s)
    <> Ret None).
  { intros e evs s1 Hl. unfold embed_one.
    rewrite (bind_raise_run _ _ _ _ _ _
               (sync_document_id_raises _ _ _ _ _ _ Hl)).
    discriminate. }
  destruct (handle (GET_documents dataset_id (Some table_name)) s)
    as [[st b|] s1] eqn:Hl.
  - pose proof (list_documents_answered _ _ _ _ _ _ Hl) as Hrun.
    destruct (json_data_run st b s1) as [(docs & Hj & Hb)|(e & Hj)];
      rewrite Hj in Hrun.
    + intros H.
      destruct (Hlisted _ _ _ Hrun eq_refl H)
        as (Hforce & d & st' & b' & Hf & Ht & Hq & Hs & Hev).
      split; [exact Hforce|]. exists d, st', b'.
      destruct Hb as [->|[_ ->]]; [|discriminate Hf].
      cbn [snd]. repeat split; auto.
      exists st, docs, s1. auto.
    + intros H. elim (Hraises _ _ _ Hrun H).
  - intros H.
    elim (Hraises _ _ _ (list_documents_failure _ _ _ _ Hl) H).
Qed.

(** C7, as the code has it: [embed_knowledge] builds [response_seq] with
    one entry per document of the mapping and then drops it: whenever the
    call returns, it returns [None].  An entry of [response_seq] is [None]
    exactly for a located document, without [force_override], whose
    update-by-text was answered with a status that is not a success. *)
Theorem embed_knowledge_returns_none :
  forall (depth : nat) (tasks : list (string * string)) (db_name : string)
    (force_override : bool) (s : remote),
    tasks <> [] ->
    (forall v,
       result (embed_knowledge handle self depth tasks db_name
                 force_override s) = Ret v ->
       v = None /\
       exists dataset_id response_seq,
         let r := _hook_knowledge_dataset handle depth db_name s in
         result r = Ret dataset_id /\
         result (embed_loop handle self dataset_id force_override tasks []
                   (after r)) = Ret response_seq /\
         loop_entries handle self dataset_id force_override tasks (after r)
           response_seq /\
         List.length response_seq = List.length tasks) /\
    (forall dataset_id table_name card s',
       result (embed_one handle self dataset_id force_override table_name
                 card s') = Ret None ->
       force_override = false /\
       exists d st b,
         located handle dataset_id table_name s' d /\
         fst (handle (POST_update_by_text dataset_id (id d)
                        (_document_preprocess_payload self table_name card))
                (snd (handle (GET_documents dataset_id (Some table_name))
                        s')))
         = Response st b /\
         is_success st = false /\
         emitted (embed_one handle self dataset_id force_override table_name
                    card s')
         = [Http (GET_documents dataset_id (Some table_name));
            Http (POST_update_by_text dataset_id (id d)
                    (_document_preprocess_payload self table_name card));
            Log ERROR (MsgUpdateFailed table_name)]) /\
    (forall dataset_id table_name card s' d st b,
       located handle dataset_id table_name s' d ->
       force_override = false ->
       fst (handle (POST_update_by_text dataset_id (id d)
                      (_document_preprocess_payload self table_name card))
              (snd (handle (GET_documents dataset_id (Some table_name)) s')))
       = Response st b ->
       (result (embed_one handle self dataset_id force_override table_name
                  card s') = Ret None <->
        is_success st = false)).
Proof.
  intros depth tasks db_name force_override s Hne. split; [|split].
  - intros v. destruct tasks as [|task tasks]; [congruence|].
    unfold embed_knowledge. unfold bind at 1.
    destruct (result (_hook_knowledge_dataset handle depth db_name s))
      as [dataset_id|e|] eqn:Hhook; cbn [result]; try discriminate.
    unfold bind.
    destruct (result (embed_loop handle self dataset_id force_override
                        (task :: tasks) []
                        (after (_hook_knowledge_dataset handle depth db_name s))))
      as [seq|e|] eqn:Hloop; cbn [result]; try discriminate.
    intros [= <-]. split; [reflexivity|].
    exists dataset_id, seq. cbv zeta.
    destruct (proj1 (embed_loop_entries _ _ _ _ _ _) Hloop)
      as (resps & Hseq & Hent).
    cbn [app] in Hseq. subst resps.
    repeat split; auto.
    exact (loop_entries_length _ _ _ _ _ Hent).
  - intros dataset_id table_name card s'. apply embed_one_none.
  - intros dataset_id table_name card s' d st b (st0 & docs & s1 & Hl & Hf & Ht)
      -> Hq.
    rewrite (embed_one_listed _ _ _ _ _ _ _ _ Hl).
    unfold first_named. rewrite Hf, Ht, result_prepend.
    rewrite Hl in Hq. cbn [snd] in Hq.
    destruct (update_run dataset_id (id d) table_name card s1)
      as (_ & _ & Hnone).
    split.
    + intros H. destruct (Hnone H) as (_ & st' & b' & Hq' & Hs).
      rewrite Hq in Hq'. congruence.
    + intros Hs.
      destruct (handle (POST_update_by_text dataset_id (id d)
                          (_document_preprocess_payload self table_name card))
                  s1) as [rep s2] eqn:Hu.
      cbn [fst] in Hq. subst rep.
      rewrite (update_failed_run _ _ _ _ _ _ _ _ Hu Hs). reflexivity.
Qed.

(** *** Bulk delete *)

(** One iteration of the [for] of lines 218-223. *)
Lemma delete_attempt_run dataset_id doc s :
  let q := DELETE_document dataset_id (id doc) in
  try_except
    (bind (_delete_document handle dataset_id (id doc))
       (fun _ => logger DEBUG (MsgDeleteDocument doc)))
    (fun err =>
       match err with
       | HTTPStatusError _ =>
           Some (logger WARNING (MsgDeleteFailed (name doc) err))
       | _ => None
       end)
    (fun _ => ret tt) s
  = match fst (handle q s) with
    | Response st _ =>
        Run (Ret tt) (delete_report dataset_id (doc, st)) (snd (handle q s))
    | TransportFailure =>
        Run (Raise TransportError) [Http q] (snd (handle q s))
    end.
Proof.
  cbv zeta. unfold try_except, bind. rewrite delete_run.
  cbn [result emitted after].
  destruct (fst (handle (DELETE_document dataset_id (id doc)) s))
    as [st b|]; [|reflexivity].
  unfold delete_report.
  destruct (is_success st); reflexivity.
Qed.

Lemma delete_loop_cons dataset_id doc docs s :
  let q := DELETE_document dataset_id (id doc) in
  delete_loop handle dataset_id (doc :: docs) s
  = match fst (handle q s) with
    | Response st _ =>
        prepend (delete_report dataset_id (doc, st))
          (delete_loop handle dataset_id docs (snd (handle q s)))
    | TransportFailure =>
        Run (Raise TransportError) [Http q] (snd (handle q s))
    end.
Proof.
  cbv zeta. cbn [delete_loop].
  pose proof (delete_attempt_run dataset_id doc s) as H. cbv zeta in H.
  destruct (fst (handle (DELETE_document dataset_id (id doc)) s))
    as [st b|].
  - rewrite (bind_ret_run _ _ _ _ _ _ H). reflexivity.
  - rewrite (bind_raise_run _ _ _ _ _ _ H). reflexivity.
Qed.

Lemma delete_loop_run dataset_id :
  (forall i s, fst (handle (DELETE_document dataset_id i) s)
               <> TransportFailure) ->
  forall docs s,
    List.length (delete_statuses handle dataset_id docs s) = List.length docs /\
    result (delete_loop handle dataset_id docs s) = Ret tt /\
    emitted (delete_loop handle dataset_id docs s)
    = flat_map (delete_report dataset_id)
        (combine docs (delete_statuses handle dataset_id docs s)).
Proof.
  intros Hresp docs. induction docs as [|doc docs IH]; intros s.
  - repeat split.
  - rewrite delete_loop_cons. cbn [delete_statuses].
    destruct (handle (DELETE_document dataset_id (id doc)) s)
      as [rep s1] eqn:Hq.
    destruct rep as [st b|].
    2:{ exfalso. apply (Hresp (id doc) s). rewrite Hq. reflexivity. }
    cbn [fst snd].
    destruct (IH s1) as (Hlen & Hres & Hev).
    cbn [List.length combine flat_map].
    rewrite result_prepend, emitted_prepend, Hlen, Hres, Hev.
    repeat split.
Qed.

Lemma in_combine_nth {A B} (l : list A) (l' : list B) : forall n a b,
  nth_error l n = Some a -> nth_error l' n = Some b ->
  In (a, b) (combine l l').
Proof.
  revert l'. induction l as [|x l IH]; intros [|y l'] [|n] a b Ha Hb;
    cbn in *; try discriminate.
  - left. congruence.
  - right. eapply IH; eauto.
Qed.

Lemma requests_delete_reports dataset_id : forall docs statuses,
  List.length statuses = List.length docs ->
  requests (flat_map (delete_report dataset_id) (combine docs statuses))
  = map (fun d => DELETE_document dataset_id (id d)) docs.
Proof.
  induction docs as [|doc docs IH]; intros [|st statuses] Hlen;
    try discriminate; [reflexivity|].
  cbn [combine flat_map map]. rewrite requests_app, IH by (cbn in Hlen; lia).
  unfold delete_report. destruct (is_success st); reflexivity.
Qed.

(** C8: once the dataset is resolved, [delete_all_document] lists its
    documents without a keyword and issues one delete per listed document,
    in listing order.  When every delete is answered with a status, the
    call returns after all of them; what it writes for each document is
    fixed by the status the service answered to its delete: the record of
    line 221 on a success, the WARNING record of line 223 naming the
    document and the status otherwise, with the deletes of the documents
    after it issued all the same; the count of listed documents is
    reported at the end. *)
Theorem delete_all_document_best_effort :
  forall (depth : nat) (db_name dataset_id : string) (s s2 : remote)
    (st : Z) (docs : list item),
    (forall i s', fst (handle (DELETE_document dataset_id i) s')
                  <> TransportFailure) ->
    result (_hook_knowledge_dataset handle depth db_name s)
    = Ret dataset_id ->
    handle (GET_documents dataset_id None)
      (after (_hook_knowledge_dataset handle depth db_name s))
    = (Response st (JData docs), s2) ->
    let r := delete_all_document handle depth db_name s in
    let resolved := emitted (_hook_knowledge_dataset handle depth db_name s) in
    let statuses := delete_statuses handle dataset_id docs s2 in
    result r = Ret tt /\
    requests (emitted r)
    = requests resolved ++
      GET_documents dataset_id None ::
      map (fun d => DELETE_document dataset_id (id d)) docs /\
    List.length statuses = List.length docs /\
    emitted r
    = resolved ++
      Http (GET_documents dataset_id None) ::
      flat_map (delete_report dataset_id) (combine docs statuses) ++
      [Log SUCCESS (MsgDeleteAll (List.length docs))] /\
    (forall n doc status,
       nth_error docs n = Some doc ->
       nth_error statuses n = Some status ->
       In (Http (DELETE_document dataset_id (id doc))) (emitted r) /\
       (is_success status = false ->
        In (Log WARNING
              (MsgDeleteFailed (name doc) (HTTPStatusError status)))
          (emitted r)) /\
       (is_success status = true ->
        In (Log DEBUG (MsgDeleteDocument doc)) (emitted r))).
Proof.
  intros depth db_name dataset_id s s2 st docs Hresp Hhook Hl.
  cbv zeta. unfold delete_all_document.
  assert (Hrun : _hook_knowledge_dataset handle depth db_name s
                 = Run (Ret dataset_id)
                     (emitted (_hook_knowledge_dataset handle depth db_name s))
                     (after (_hook_knowledge_dataset handle depth db_name s))).
  { rewrite <- Hhook. apply run_eta. }
  destruct (delete_loop_run dataset_id Hresp docs s2) as (Hlen & Hres & Hev).
  assert (Hloop : delete_loop handle dataset_id docs s2
                  = Run (Ret tt)
                      (flat_map (delete_report dataset_id)
                         (combine docs
                            (delete_statuses handle dataset_id docs s2)))
                      (after (delete_loop handle dataset_id docs s2))).
  { rewrite <- Hres, <- Hev. apply run_eta. }
  assert (Hfull :
    bind (_hook_knowledge_dataset handle depth db_name)
      (fun dataset_id0 =>
         bind (_list_documents handle dataset_id0 None)
           (fun docs0 =>
              bind (delete_loop handle dataset_id0 docs0)
                (fun _ => logger SUCCESS (MsgDeleteAll (List.length docs0)))))
      s
    = Run (Ret tt)
        (emitted (_hook_knowledge_dataset handle depth db_name s) ++
         Http (GET_documents dataset_id None) ::
         flat_map (delete_report dataset_id)
           (combine docs (delete_statuses handle dataset_id docs s2)) ++
         [Log SUCCESS (MsgDeleteAll (List.length docs))])
        (after (delete_loop handle dataset_id docs s2))).
  { rewrite (bind_ret_run _ _ _ _ _ _ Hrun).
    rewrite (bind_ret_run _ _ _ _ _ _ (list_documents_run _ _ _ _ _ _ Hl)).
    rewrite (bind_ret_run _ _ _ _ _ _ Hloop).
    rewrite !prepend_prepend.
    unfold prepend. cbn [result emitted after logger emit].
    rewrite <- !app_assoc. reflexivity. }
  rewrite Hfull. cbn [result emitted].
  split; [reflexivity|]. split; [|split; [exact Hlen|split; [reflexivity|]]].
  - rewrite !requests_app. cbn [requests]. rewrite requests_app.
    rewrite (requests_delete_reports _ _ _ Hlen).
    cbn [requests]. rewrite app_nil_r. reflexivity.
  - intros n doc status Hdoc Hstatus.
    pose proof (in_combine_nth _ _ _ _ _ Hdoc Hstatus) as Hin.
    assert (Hrep : forall e,
      In e (delete_report dataset_id (doc, status)) ->
      In e (emitted (_hook_knowledge_dataset handle depth db_name s) ++
            Http (GET_documents dataset_id None) ::
            flat_map (delete_report dataset_id)
              (combine docs (delete_statuses handle dataset_id docs s2)) ++
            [Log SUCCESS (MsgDeleteAll (List.length docs))])).
    { intros e He. apply in_or_app. right. right.
      apply in_or_app. left. apply in_flat_map.
      exists (doc, status). split; assumption. }
    repeat split.
    + apply Hrep. left. reflexivity.
    + intros Hs. apply Hrep. unfold delete_report. rewrite Hs.
      right. left. reflexivity.
    + intros Hs. apply Hrep. unfold delete_report. rewrite Hs.
      right. left. reflexivity.
Qed.

(** C10: when the listing of datasets does not contain the name,
    [delete_all_document] issues a create-dataset request for that name
    right after the listing, before any other request; and when the
    service then lists the new dataset and reports no document in it, the
    call lists the documents of the new dataset, issues no delete, reports a
    count of 0 and returns: the only change it asked of the service is the
    creation of the dataset. *)
Theorem delete_all_document_creates_missing_dataset :
  forall (depth : nat) (db_name : string) (s s1 : remote) (st : Z)
    (l : list item),
    handle GET_datasets s = (Response st (JData l), s1) ->
    first_named db_name l = None ->
    let r := delete_all_document handle (S depth) db_name s in
    (exists rest,
       requests (emitted r) = GET_datasets :: POST_datasets db_name :: rest) /\
    (forall st2 b2 s2 st3 l3 s3 d st4 s4,
       handle (POST_datasets db_name) s1 = (Response st2 b2, s2) ->
       b2 <> NotJson ->
       handle GET_datasets s2 = (Response st3 (JData l3), s3) ->
       first_named db_name l3 = Some d ->
       handle (GET_documents (id d) None) s3 = (Response st4 (JData []), s4) ->
       1 <= depth ->
       r = Run (Ret tt)
             [Http GET_datasets; Log WARNING MsgDatasetMissing;
              Http (POST_datasets db_name);
              Log SUCCESS (MsgDatasetCreated b2);
              Http GET_datasets; Log SUCCESS (MsgDatasetId db_name (id d));
              Http (GET_documents (id d) None);
              Log SUCCESS (MsgDeleteAll 0)] s4).
Proof.
  intros depth db_name s s1 st l Hg Hf. cbv zeta. split.
  - unfold delete_all_document. cbn [_hook_knowledge_dataset].
    rewrite !bind_assoc, (bind_send_response _ _ _ _ _ _ Hg).
    rewrite json_data_items, bind_assoc, bind_ret_value, Hf.
    rewrite !bind_assoc, bind_logger.
    rewrite !prepend_prepend. rewrite emitted_prepend, requests_app.
    cbn [app requests].
    destruct (handle (POST_datasets db_name) s1) as [[st2 b2|] s2] eqn:Hp.
    + rewrite !bind_assoc, (bind_send_response _ _ _ _ _ _ Hp).
      rewrite emitted_prepend. cbn [app requests]. eexists; reflexivity.
    + rewrite !bind_assoc, (bind_send_failure _ _ _ _ Hp).
      cbn [emitted requests]. eexists; reflexivity.
  - intros st2 b2 s2 st3 l3 s3 d st4 s4 Hp Hb Hg2 Hf2 Hd Hdepth.
    destruct depth as [|depth]; [lia|].
    unfold delete_all_document.
    assert (Hmiss : attempt_misses handle db_name s = true).
    { unfold attempt_misses. rewrite Hg. unfold first_named in Hf.
      rewrite Hf, Hp. cbn [fst]. destruct b2; congruence. }
    assert (Hretry : retry_state handle db_name s = s2).
    { unfold retry_state. rewrite Hg. cbn [snd]. rewrite Hp. reflexivity. }
    assert (Hanswer : creation_answer handle db_name s = b2).
    { unfold creation_answer. rewrite Hg. cbn [snd]. rewrite Hp.
      reflexivity. }
    unfold bind at 1. rewrite (hook_missing _ _ _ Hmiss), Hretry, Hanswer.
    rewrite (hook_found _ _ _ _ _ _ _ Hg2 Hf2).
    cbn [result emitted after prepend app].
    rewrite (bind_ret_run _ _ _ _ _ _ (list_documents_run _ _ _ _ _ _ Hd)).
    reflexivity.
Qed.

End Facts.

(** * The client against concrete services *)

(** C1 fails on the code: with two documents to create and a service that
    answers the first create-by-text with status 500, [embed_knowledge]
    raises and issues nothing for the second document; so does it when the
    delete of the force-override path is answered with status 500. *)
Lemma embed_knowledge_create_failure_aborts :
  (let r := embed_knowledge (fixed_handle [] 500) fire_drop 1
              [("a", "x"); ("b", "y")] "catalog" false tt in
   result r = Raise (HTTPStatusError 500) /\
   requests (emitted r)
   = [GET_datasets; GET_documents "ds-1" (Some "a");
      POST_create_by_text "ds-1"
        (_document_preprocess_payload fire_drop "a" "x")]) /\
  (let r := embed_knowledge (fixed_handle [Item "d1" "a.txt"] 500) fire_drop 1
              [("a", "x"); ("b", "y")] "catalog" true tt in
   result r = Raise (HTTPStatusError 500) /\
   requests (emitted r)
   = [GET_datasets; GET_documents "ds-1" (Some "a");
      DELETE_document "ds-1" "d1"]).
Proof. repeat split. Qed.

(** The outcomes of C1 on concrete services: a refused create for an
    unlisted document, for a listed document with an empty identifier and
    after an accepted force-override delete; a refused force-override
    delete; a refused update. *)
Lemma embed_loop_failure_outcomes_witness :
  embed_loop (fixed_handle [] 500) fire_drop "ds-1" false
    ([] ++ [("a", "x"); ("b", "y")]) [] tt
  = Run (Raise (HTTPStatusError 500))
      (([] ++ [Http (GET_documents "ds-1" (Some "a"))]) ++
       [Http (POST_create_by_text "ds-1"
                (_document_preprocess_payload fire_drop "a" "x"))]) tt
  /\
  embed_loop (fixed_handle [Item EmptyString "a.txt"] 500) fire_drop "ds-1"
    false ([] ++ [("a", "x"); ("b", "y")]) [] tt
  = Run (Raise (HTTPStatusError 500))
      (([] ++ [Http (GET_documents "ds-1" (Some "a"))]) ++
       [Http (POST_create_by_text "ds-1"
                (_document_preprocess_payload fire_drop "a" "x"))]) tt
  /\
  embed_loop (create_refusing_handle [Item "d1" "a.txt"]) fire_drop "ds-1"
    true ([] ++ [("a", "x"); ("b", "y")]) [] tt
  = Run (Raise (HTTPStatusError 500))
      (([] ++ [Http (GET_documents "ds-1" (Some "a"))]) ++
       [Http (DELETE_document "ds-1" "d1");
        Http (POST_create_by_text "ds-1"
                (_document_preprocess_payload fire_drop "a" "x"))]) tt
  /\
  embed_loop (fixed_handle [Item "d1" "a.txt"] 500) fire_drop "ds-1" true
    ([] ++ [("a", "x"); ("b", "y")]) [] tt
  = Run (Raise (HTTPStatusError 500))
      (([] ++ [Http (GET_documents "ds-1" (Some "a"))]) ++
       [Http (DELETE_document "ds-1" "d1")]) tt
  /\
  embed_loop memory_handle fire_drop "ds-catalog" false
    ([] ++ [("a", "x"); ("b", "y")]) [] archived_memory
  = prepend
      (([] ++ [Http (GET_documents "ds-catalog" (Some "a"))]) ++
       [Http (POST_update_by_text "ds-catalog" "doc-a"
                (_document_preprocess_payload fire_drop "a" "x"));
        Log ERROR (MsgUpdateFailed "a")])
      (embed_loop memory_handle fire_drop "ds-catalog" false [("b", "y")]
         ([] ++ [None]) archived_memory).
Proof.
  split; [|split; [|split; [|split]]].
  - refine (proj1 (embed_loop_failure_outcomes unit (fixed_handle [] 500)
                     fire_drop "ds-1" "a" "x" false [] [("b", "y")] [] []
                     tt tt 200 [] eq_refl eq_refl)
              500%Z (JUpload (UploadJson None "batch-a")) tt _ eq_refl
              eq_refl).
    intros d H. discriminate H.
  - refine (proj1 (embed_loop_failure_outcomes unit
                     (fixed_handle [Item EmptyString "a.txt"] 500)
                     fire_drop "ds-1" "a" "x" false [] [("b", "y")] [] []
                     tt tt 200 [Item EmptyString "a.txt"] eq_refl eq_refl)
              500%Z (JUpload (UploadJson None "batch-a")) tt _ eq_refl
              eq_refl).
    intros d H. injection H as <-. reflexivity.
  - refine (proj1 (proj2 (embed_loop_failure_outcomes unit
                     (create_refusing_handle [Item "d1" "a.txt"])
                     fire_drop "ds-1" "a" "x" true [] [("b", "y")] [] []
                     tt tt 200 [Item "d1" "a.txt"] eq_refl eq_refl))
              (Item "d1" "a.txt") 204%Z NotJson tt 500%Z JOther tt
              eq_refl eq_refl eq_refl eq_refl eq_refl eq_refl eq_refl).
  - refine (proj1 (proj2 (proj2 (embed_loop_failure_outcomes unit
                     (fixed_handle [Item "d1" "a.txt"] 500)
                     fire_drop "ds-1" "a" "x" true [] [("b", "y")] [] []
                     tt tt 200 [Item "d1" "a.txt"] eq_refl eq_refl)))
              (Item "d1" "a.txt") 500%Z JOther tt
              eq_refl eq_refl eq_refl eq_refl eq_refl).
  - refine (proj2 (proj2 (proj2 (embed_loop_failure_outcomes memory
                     memory_handle
                     fire_drop "ds-catalog" "a" "x" false [] [("b", "y")]
                     [] [] archived_memory archived_memory 200
                     [Item "doc-a" "a.txt"] eq_refl eq_refl)))
              (Item "doc-a" "a.txt") 400%Z JOther archived_memory
              eq_refl eq_refl eq_refl eq_refl eq_refl).
Defined.

(** C2 fails on the code: on a service that lists a created dataset only
    after the second create request, the resolution issues two
    create-dataset requests and lists three times before it returns; and on
    a service that never lists it, a depth of 50 is used up by 50 create
    requests. *)
Lemma hook_knowledge_dataset_retries_twice :
  (let r := _hook_knowledge_dataset (lagging_handle 2) 3 "catalog" 0 in
   result r = Ret "ds-1" /\
   requests (emitted r)
   = [GET_datasets; POST_datasets "catalog"; GET_datasets;
      POST_datasets "catalog"; GET_datasets]) /\
  (let r := _hook_knowledge_dataset blind_handle 50 "catalog" tt in
   result r = OutOfFuel /\
   List.length (filter is_create_dataset (requests (emitted r))) = 50).
Proof. repeat split. Qed.

(** The resolution of C2 on the service that lags by two create requests. *)
Lemma hook_knowledge_dataset_retries_unbounded_witness :
  (let r := _hook_knowledge_dataset (lagging_handle 2) 2 "catalog" 0 in
   result r = OutOfFuel /\
   requests (emitted r) = List.concat (repeat (one_retry "catalog") 2)) /\
  (let r := _hook_knowledge_dataset (lagging_handle 2) 3 "catalog" 0 in
   result r = Ret "ds-1" /\
   requests (emitted r)
   = List.concat (repeat (one_retry "catalog") 2) ++ [GET_datasets]).
Proof.
  assert (Hmiss : forall j, j < 2 ->
            attempt_misses (lagging_handle 2) "catalog"
              (after_retries (lagging_handle 2) "catalog" j 0) = true).
  { intros [|[|j]] Hj; [reflexivity|reflexivity|lia]. }
  destruct (hook_knowledge_dataset_retries_unbounded nat (lagging_handle 2)
              "catalog" 2 0 Hmiss) as [Hout Hfound].
  split; [exact Hout|].
  apply (Hfound [Item "ds-1" "catalog"] (Item "ds-1" "catalog") 3);
    [reflexivity|reflexivity|lia].
Defined.

(** C3 fails on the code: when the delete of the force-override path is
    answered with status 403, no create-by-text follows it. *)
Lemma embed_one_dispatch_exceptions :
  let r := embed_one (fixed_handle [Item "d1" "a.txt"] 403) fire_drop
             "ds-1" true "a" "x" tt in
  result r = Raise (HTTPStatusError 403) /\
  requests (emitted r)
  = [GET_documents "ds-1" (Some "a"); DELETE_document "ds-1" "d1"].
Proof. split; reflexivity. Qed.

(** The three branches of C3 on concrete listings. *)
Lemma embed_one_dispatch_witness :
  requests
    (emitted (embed_one (fixed_handle [Item "d1" "a.txt"] 200) fire_drop
                "ds-1" true "a" "x" tt))
  = [GET_documents "ds-1" (Some "a"); DELETE_document "ds-1" "d1";
     POST_create_by_text "ds-1"
       (_document_preprocess_payload fire_drop "a" "x")]
  /\
  requests
    (emitted (embed_one (fixed_handle [Item "d1" "a.txt"] 200) fire_drop
                "ds-1" false "a" "x" tt))
  = [GET_documents "ds-1" (Some "a");
     POST_update_by_text "ds-1" "d1"
       (_document_preprocess_payload fire_drop "a" "x")]
  /\
  requests
    (emitted (embed_one (fixed_handle [] 200) fire_drop
                "ds-1" false "a" "x" tt))
  = [GET_documents "ds-1" (Some "a");
     POST_create_by_text "ds-1"
       (_document_preprocess_payload fire_drop "a" "x")].
Proof.
  split; [|split].
  - exact (proj2 (proj2
      (embed_one_dispatch unit (fixed_handle [Item "d1" "a.txt"] 200)
         fire_drop "ds-1" "a" "x" true tt tt 200 [Item "d1" "a.txt"]
         eq_refl))
      (Item "d1" "a.txt") eq_refl eq_refl eq_refl).
  - exact (proj1 (proj2
      (embed_one_dispatch unit (fixed_handle [Item "d1" "a.txt"] 200)
         fire_drop "ds-1" "a" "x" false tt tt 200 [Item "d1" "a.txt"]
         eq_refl))
      (Item "d1" "a.txt") eq_refl eq_refl eq_refl).
  - exact (proj1
      (embed_one_dispatch unit (fixed_handle [] 200)
         fire_drop "ds-1" "a" "x" false tt tt 200 [] eq_refl)
      eq_refl).
Defined.

(** C4 on the in-memory service whose document "a.txt" is archived. *)
Lemma update_failure_is_recovered_witness :
  _update_document_by_text memory_handle fire_drop "ds-catalog" "doc-a"
    "a" "x" archived_memory
  = Run (Ret None)
      [Http (POST_update_by_text "ds-catalog" "doc-a"
               (_document_preprocess_payload fire_drop "a" "x"));
       Log ERROR (MsgUpdateFailed "a")] archived_memory
  /\
  embed_loop memory_handle fire_drop "ds-catalog" false
    ([] ++ [("a", "x"); ("b", "y")]) [] archived_memory
  = prepend
      ([] ++
       [Http (GET_documents "ds-catalog" (Some "a"));
        Http (POST_update_by_text "ds-catalog" "doc-a"
                (_document_preprocess_payload fire_drop "a" "x"));
        Log ERROR (MsgUpdateFailed "a")])
      (embed_loop memory_handle fire_drop "ds-catalog" false [("b", "y")]
         ([] ++ [None]) archived_memory).
Proof.
  exact (update_failure_is_recovered memory memory_handle fire_drop
           "ds-catalog" "a" "x" [] [("b", "y")] [] []
           archived_memory archived_memory archived_memory 200 400 JOther
           [Item "doc-a" "a.txt"] (Item "doc-a" "a.txt")
           eq_refl eq_refl eq_refl eq_refl eq_refl eq_refl).
Defined.

(** C9 on the in-memory service, started empty. *)
Lemma hook_knowledge_dataset_idempotent_witness :
  let s1 := after (_hook_knowledge_dataset memory_handle 2 "catalog"
                     empty_memory) in
  let r2 := _hook_knowledge_dataset memory_handle 1 "catalog" s1 in
  result r2 = Ret "ds-catalog" /\
  requests (emitted r2) = [GET_datasets] /\
  filter is_create_dataset (requests (emitted r2)) = [] /\
  after r2 = s1.
Proof.
  apply (hook_knowledge_dataset_idempotent memory memory_handle
           (fun s => eq_refl) "catalog" 2 0 empty_memory "ds-catalog").
  reflexivity.
Defined.

(** C6 on a script that completes at the third poll, and on one that never
    leaves "indexing". *)
Lemma sync_indexing_status_terminates_iff_witness :
  _sync_indexing_status
    (indexing_handle ["indexing"; "waiting"; "completed"]) 5 "ds-1" "batch-1" 0
  = Run (Ret tt) (List.concat (repeat (one_poll "ds-1" "batch-1") 3)) 3
  /\
  _sync_indexing_status (indexing_handle []) 7 "ds-1" "batch-1" 0
  = Run OutOfFuel (List.concat (repeat (one_poll "ds-1" "batch-1") 7)) 7.
Proof.
  split.
  - assert (Hwf : forall k,
       status_at (indexing_handle ["indexing"; "waiting"; "completed"])
         "ds-1" "batch-1"
         (after_polls (indexing_handle ["indexing"; "waiting"; "completed"])
            "ds-1" "batch-1" k 0) <> None).
    { intros k. discriminate. }
    refine (proj1 (proj2 (sync_indexing_status_terminates_iff nat
              (indexing_handle ["indexing"; "waiting"; "completed"])
              "ds-1" "batch-1" 0 Hwf)) 2 5 _ _ _).
    + intros [|[|j]] status Hj; [| |lia]; intros [= <-]; reflexivity.
    + exists "completed". split; reflexivity.
    + lia.
  - assert (Hnone : forall k,
       status_at (indexing_handle []) "ds-1" "batch-1"
         (after_polls (indexing_handle []) "ds-1" "batch-1" k 0)
       = Some "indexing").
    { intros k. unfold status_at. cbn [indexing_handle fst indexing_status].
      destruct (after_polls (indexing_handle []) "ds-1" "batch-1" k 0);
        reflexivity. }
    refine (proj2 (proj2 (sync_indexing_status_terminates_iff nat
              (indexing_handle []) "ds-1" "batch-1" 0 _)) _ 7).
    + intros k. rewrite Hnone. discriminate.
    + intros k status. rewrite Hnone. intros [= <-]. reflexivity.
Defined.

(** C7 fails on the code: with one document to create, [embed_knowledge]
    returns [None], although its loop has built a one-entry
    [response_seq]. *)
Lemma embed_knowledge_drops_response_seq :
  result (embed_knowledge memory_handle fire_drop 2 [("users", "id,name")]
            "catalog" false empty_memory)
  = Ret None /\
  result (embed_loop memory_handle fire_drop "ds-catalog" false
            [("users", "id,name")] []
            (after (_hook_knowledge_dataset memory_handle 2 "catalog"
                      empty_memory)))
  = Ret [Some (Upload [] "batch-users")].
Proof. split; reflexivity. Qed.

(** C7 on the in-memory service, started empty. *)
Lemma embed_knowledge_returns_none_witness :
  @None (list (option UploadDocumentResponse)) = None /\
  exists dataset_id response_seq,
    let r := _hook_knowledge_dataset memory_handle 2 "catalog" empty_memory in
    result r = Ret dataset_id /\
    result (embed_loop memory_handle fire_drop dataset_id false
              [("users", "id,name")] [] (after r)) = Ret response_seq /\
    loop_entries memory_handle fire_drop dataset_id false
      [("users", "id,name")] (after r) response_seq /\
    List.length response_seq = List.length [("users", "id,name")].
Proof.
  refine (proj1 (embed_knowledge_returns_none memory memory_handle fire_drop
                   2 [("users", "id,name")] "catalog" false empty_memory _)
            None eq_refl).
  discriminate.
Defined.

(** C8 on the in-memory service with two documents that refuse deletion. *)
Lemma delete_all_document_best_effort_witness :
  let docs := [Item "doc-a" "a.txt"; Item "doc-b" "b.txt";
               Item "doc-c" "c.txt"; Item "doc-d" "d.txt";
               Item "doc-e" "e.txt"] in
  let r := delete_all_document memory_handle 1 "catalog" locked_memory in
  result r = Ret tt /\
  delete_statuses memory_handle "ds-catalog" docs locked_memory
  = [204; 403; 204; 403; 204]%Z /\
  In (Log WARNING (MsgDeleteFailed "b.txt" (HTTPStatusError 403)))
    (emitted r) /\
  In (Http (DELETE_document "ds-catalog" "doc-c")) (emitted r) /\
  In (Log DEBUG (MsgDeleteDocument (Item "doc-c" "c.txt"))) (emitted r).
Proof.
  assert (Hresp : forall i s',
            fst (memory_handle (DELETE_document "ds-catalog" i) s')
            <> TransportFailure).
  { intros i s'. cbn [memory_handle].
    destruct (mem i (locked s')); discriminate. }
  destruct (delete_all_document_best_effort memory memory_handle 1 "catalog"
              "ds-catalog" locked_memory locked_memory 200
              [Item "doc-a" "a.txt"; Item "doc-b" "b.txt";
               Item "doc-c" "c.txt"; Item "doc-d" "d.txt";
               Item "doc-e" "e.txt"] Hresp eq_refl eq_refl)
    as (Hres & _ & _ & _ & Hdoc).
  split; [exact Hres|]. split; [reflexivity|].
  split; [|split].
  - exact (proj1 (proj2 (Hdoc 1 (Item "doc-b" "b.txt") 403%Z
                           eq_refl eq_refl)) eq_refl).
  - exact (proj1 (Hdoc 2 (Item "doc-c" "c.txt") 204%Z eq_refl eq_refl)).
  - exact (proj2 (proj2 (Hdoc 2 (Item "doc-c" "c.txt") 204%Z
                           eq_refl eq_refl)) eq_refl).
Defined.

(** The deletes of the five documents are all issued, and the two refused
    ones are reported. *)
Example delete_all_document_two_of_five_fail :
  let r := delete_all_document memory_handle 1 "catalog" locked_memory in
  result r = Ret tt /\
  requests (emitted r)
  = [GET_datasets; GET_documents "ds-catalog" None;
     DELETE_document "ds-catalog" "doc-a";
     DELETE_document "ds-catalog" "doc-b";
     DELETE_document "ds-catalog" "doc-c";
     DELETE_document "ds-catalog" "doc-d";
     DELETE_document "ds-catalog" "doc-e"] /\
  filter (fun e => match e with Log WARNING _ => true | _ => false end)
    (emitted r)
  = [Log WARNING (MsgDeleteFailed "b.txt" (HTTPStatusError 403));
     Log WARNING (MsgDeleteFailed "d.txt" (HTTPStatusError 403))] /\
  documents (after r)
  = [("ds-catalog", Item "doc-b" "b.txt");
     ("ds-catalog", Item "doc-d" "d.txt")].
Proof. repeat split. Qed.

(** C10 on the in-memory service, started empty. *)
Lemma delete_all_document_creates_missing_dataset_witness :
  (exists rest,
     requests (emitted (delete_all_document memory_handle 2 "catalog"
                          empty_memory))
     = GET_datasets :: POST_datasets "catalog" :: rest) /\
  delete_all_document memory_handle 2 "catalog" empty_memory
  = Run (Ret tt)
      [Http GET_datasets; Log WARNING MsgDatasetMissing;
       Http (POST_datasets "catalog");
       Log SUCCESS (MsgDatasetCreated JOther);
       Http GET_datasets; Log SUCCESS (MsgDatasetId "catalog" "ds-catalog");
       Http (GET_documents "ds-catalog" None);
       Log SUCCESS (MsgDeleteAll 0)]
      (Memory [Item "ds-catalog" "catalog"] [] [] []).
Proof.
  destruct (delete_all_document_creates_missing_dataset memory memory_handle
              1 "catalog" empty_memory empty_memory 200 [] eq_refl eq_refl)
    as [Hfirst Hfull].
  split; [exact Hfirst|].
  refine (Hfull 200%Z JOther (Memory [Item "ds-catalog" "catalog"] [] [] [])
            200%Z [Item "ds-catalog" "catalog"]
            (Memory [Item "ds-catalog" "catalog"] [] [] [])
            (Item "ds-catalog" "catalog") 200%Z
            (Memory [Item "ds-catalog" "catalog"] [] [] [])
            eq_refl _ eq_refl eq_refl eq_refl _).
  - discriminate.
  - lia.
Defined.

(** The scenario of the empty service: resolving "catalog" and embedding
    one document creates one dataset and one document "users.txt". *)
Example embed_knowledge_on_empty_service :
  let r := embed_knowledge memory_handle fire_drop 2
             [("users", "id,name")] "catalog" false empty_memory in
  requests (emitted r)
  = [GET_datasets; POST_datasets "catalog"; GET_datasets;
     GET_documents "ds-catalog" (Some "users");
     POST_create_by_text "ds-catalog"
       (_document_preprocess_payload fire_drop "users" "id,name")] /\
  after r
  = Memory [Item "ds-catalog" "catalog"]
      [("ds-catalog", Item "doc-users" "users.txt")] [] [].
Proof. split; reflexivity. Qed.

(** * Further properties *)

(** ** Construction *)



(** X3: whatever separator is passed to the constructor, the segmentation
    separator of every payload is not empty: a non-empty argument is used
    as it is, and an absent or empty one is replaced by the default of
    line 33. *)
Theorem payload_separator_never_empty :
  forall (separator : option string) (name text : string),
    let p := _document_preprocess_payload (__init__ separator) name text in
    truthy (segmentation_separator p) = true /\
    (forall s, separator = Some s -> truthy s = true ->
               segmentation_separator p = s) /\
    (separator = None \/ separator = Some EmptyString ->
     segmentation_separator p = default_separator).
Proof.
  intros separator name text. cbv zeta.
  unfold _document_preprocess_payload, __init__.
  cbn [segmentation_separator my_separator].
  destruct separator as [s|].
  - destruct (truthy s) eqn:Hs.
    + repeat split; auto.
      * intros s' [= ->] _. reflexivity.
      * intros [[=]|[= ->]]. discriminate.
    + repeat split; auto. intros s' [= ->] H. congruence.
  - repeat split; auto. intros s' [=].
Qed.

(** ** The client over an arbitrary service, continued *)

Lemma first_named_split (wanted : string) (l : list item) (d : item) :
  first_named wanted l = Some d <->
  exists pre post,
    l = pre ++ d :: post /\ name d = wanted /\
    forall x, In x pre -> name x <> wanted.
Proof.
  unfold first_named. induction l as [|x l IH]; cbn.
  - split; [discriminate|]. intros (pre & post & H & _).
    destruct pre; discriminate.
  - destruct (name x =? wanted) eqn:Hx.
    + apply String.eqb_eq in Hx. split.
      * intros [= <-]. exists [], l. repeat split; auto;
          try (intros y []).
      * intros (pre & post & H & Hd & Hpre).
        destruct pre as [|y pre]; cbn in H.
        -- congruence.
        -- injection H as <- _. exfalso. apply (Hpre x); [left|]; auto.
    + apply String.eqb_neq in Hx. rewrite IH. split.
      * intros (pre & post & -> & Hd & Hpre).
        exists (x :: pre), post. repeat split; auto.
        intros y [<-|Hy]; auto.
      * intros (pre & post & H & Hd & Hpre).
        destruct pre as [|y pre]; cbn in H.
        -- injection H as -> _. congruence.
        -- injection H as <- ->. exists pre, post. repeat split; auto.
           intros z Hz. apply Hpre. right; exact Hz.
Qed.

Lemma first_named_none (wanted : string) (l : list item) :
  first_named wanted l = None <-> forall x, In x l -> name x <> wanted.
Proof.
  unfold first_named. split.
  - intros H x Hx Hn.
    pose proof (find_none _ _ H x Hx) as Hf. cbn in Hf.
    apply String.eqb_neq in Hf. contradiction.
  - intros H. destruct (find _ l) as [d|] eqn:Hf; [|reflexivity].
    apply find_some in Hf. destruct Hf as [Hin Hd].
    apply String.eqb_eq in Hd. elim (H d Hin Hd).
Qed.

Section Coverage.

Variable remote : Type.
Variable handle : request -> remote -> reply * remote.
Variable self : DifyFireDrop.

Lemma bind_emitted {A B} (m : M remote A) (k : A -> M remote B) s :
  emitted (bind m k s)
  = emitted (m s) ++
    match result (m s) with
    | Ret a => emitted (k a (after (m s)))
    | _ => []
    end.
Proof.
  unfold bind. destruct (result (m s)); cbn; rewrite ?app_nil_r; reflexivity.
Qed.

Lemma bind_result {A B} (m : M remote A) (k : A -> M remote B) s :
  result (bind m k s)
  = match result (m s) with
    | Ret a => result (k a (after (m s)))
    | Raise e => Raise e
    | OutOfFuel => OutOfFuel
    end.
Proof. unfold bind. destruct (result (m s)); reflexivity. Qed.

Lemma json_data_listing st b (s : remote) :
  json_data (st, b) s = Run (listing_of b) [] s.
Proof. destruct b as [l|[|row rows]|u| |]; reflexivity. Qed.

(** *** The locator *)

(** What [_list_documents] gives, by the answer it gets. *)
Lemma list_documents_outcome dataset_id keyword s :
  let q := GET_documents dataset_id keyword in
  _list_documents handle dataset_id keyword s
  = Run (match fst (handle q s) with
         | Response _ b => listing_of b
         | TransportFailure => Raise TransportError
         end) [Http q] (snd (handle q s)).
Proof.
  cbv zeta.
  destruct (handle (GET_documents dataset_id keyword) s) as [[st b|] s1] eqn:Hq.
  - rewrite (list_documents_answered _ _ _ _ _ _ _ _ Hq), json_data_listing.
    reflexivity.
  - exact (list_documents_failure _ _ _ _ _ _ Hq).
Qed.

Lemma sync_document_id_outcome dataset_id table_name s :
  let q := GET_documents dataset_id (Some table_name) in
  _sync_document_id handle dataset_id table_name s
  = Run (match fst (handle q s) with
         | Response _ b =>
             match listing_of b with
             | Ret docs =>
                 Ret (option_map id
                        (first_named (table_name ++ ".txt")%string docs))
             | Raise e => Raise e
             | OutOfFuel => OutOfFuel
             end
         | TransportFailure => Raise TransportError
         end) [Http q] (snd (handle q s)).
Proof.
  cbv zeta. pose proof (list_documents_outcome dataset_id (Some table_name) s)
    as Hl. cbv zeta in Hl.
  destruct (fst (handle (GET_documents dataset_id (Some table_name)) s))
    as [st b|].
  - destruct (listing_of b) as [docs|e|].
    + exact (sync_document_id_listed _ _ _ _ _ _ _ _ Hl).
    + exact (sync_document_id_raises _ _ _ _ _ _ _ _ Hl).
    + unfold _sync_document_id, bind. rewrite Hl. reflexivity.
  - exact (sync_document_id_raises _ _ _ _ _ _ _ _ Hl).
Qed.

(** X4: the locator is a pure lookup and never fails on a status: whatever
    the service answers, [_sync_document_id] issues exactly one request,
    the listing of the dataset's documents with the table name as keyword,
    writes no log record, and never raises [HTTPStatusError], since the
    status code of the listing is not looked at. *)
Theorem sync_document_id_only_lists :
  forall (dataset_id table_name : string) (s : remote),
    let r := _sync_document_id handle dataset_id table_name s in
    emitted r = [Http (GET_documents dataset_id (Some table_name))] /\
    after r = snd (handle (GET_documents dataset_id (Some table_name)) s) /\
    forall st, result r <> Raise (HTTPStatusError st).
Proof.
  intros dataset_id table_name s. cbv zeta.
  rewrite sync_document_id_outcome. cbn [emitted after result].
  repeat split.
  intros st.
  destruct (fst (handle _ s)) as [st' b|]; [|discriminate].
  destruct b as [l|[|row rows]|u| |]; cbn; discriminate.
Qed.

(** X5: when the listing is answered with documents, the locator returns
    the identifier of the first listed document named exactly
    [table_name + ".txt"], whatever follows it in the listing, and [None]
    exactly when no listed document has that name; the status code of the
    answer plays no part. *)
Theorem sync_document_id_first_exact_match :
  forall (dataset_id table_name : string) (s s1 : remote) (st : Z)
    (docs : list item),
    handle (GET_documents dataset_id (Some table_name)) s
    = (Response st (JData docs), s1) ->
    let r := _sync_document_id handle dataset_id table_name s in
    (result r = Ret None <->
     forall d, In d docs -> name d <> (table_name ++ ".txt")%string) /\
    (forall i,
       result r = Ret (Some i) <->
       exists pre d post,
         docs = pre ++ d :: post /\
         name d = (table_name ++ ".txt")%string /\ id d = i /\
         forall x, In x pre -> name x <> (table_name ++ ".txt")%string).
Proof.
  intros dataset_id table_name s s1 st docs Hq. cbv zeta.
  rewrite (sync_document_id_run _ _ _ _ _ _ _ _ Hq). cbn [result].
  split.
  - rewrite <- first_named_none.
    destruct (first_named _ docs); cbn; split; congruence.
  - intros i. split.
    + destruct (first_named _ docs) as [d|] eqn:Hf; cbn; [|discriminate].
      intros [= <-]. apply first_named_split in Hf.
      destruct Hf as (pre & post & Hl & Hd & Hpre).
      exists pre, d, post. auto.
    + intros (pre & d & post & Hl & Hd & Hi & Hpre).
      assert (Hf : first_named (table_name ++ ".txt")%string docs = Some d).
      { apply first_named_split. exists pre, post. auto. }
      rewrite Hf. cbn. congruence.
Qed.

(** *** Dataset resolution, for every service *)

(** One attempt of [_hook_knowledge_dataset], by the answers it gets. *)
Lemma hook_attempt depth db_name s :
  _hook_knowledge_dataset handle (S depth) db_name s
  = match handle GET_datasets s with
    | (TransportFailure, s1) => Run (Raise TransportError) [Http GET_datasets] s1
    | (Response _ b, s1) =>
        match listing_of b with
        | Ret l =>
            match first_named db_name l with
            | Some d =>
                Run (Ret (id d))
                  [Http GET_datasets; Log SUCCESS (MsgDatasetId db_name (id d))]
                  s1
            | None =>
                match handle (POST_datasets db_name) s1 with
                | (TransportFailure, s2) =>
                    Run (Raise TransportError)
                      [Http GET_datasets; Log WARNING MsgDatasetMissing;
                       Http (POST_datasets db_name)] s2
                | (Response _ NotJson, s2) =>
                    Run (Raise JSONDecodeError)
                      [Http GET_datasets; Log WARNING MsgDatasetMissing;
                       Http (POST_datasets db_name)] s2
                | (Response _ answer, s2) =>
                    prepend
                      [Http GET_datasets; Log WARNING MsgDatasetMissing;
                       Http (POST_datasets db_name);
                       Log SUCCESS (MsgDatasetCreated answer)]
                      (_hook_knowledge_dataset handle depth db_name s2)
                end
            end
        | Raise e => Run (Raise e) [Http GET_datasets] s1
        | OutOfFuel => Run OutOfFuel [Http GET_datasets] s1
        end
    end.
Proof.
  cbn [_hook_knowledge_dataset].
  destruct (handle GET_datasets s) as [[st b|] s1] eqn:Hg.
  2:{ exact (bind_send_failure _ _ _ _ _ _ Hg). }
  rewrite (bind_send_response _ _ _ _ _ _ _ _ Hg).
  unfold bind at 1. rewrite json_data_listing. cbn [result emitted after].
  destruct (listing_of b) as [l|e|]; try reflexivity.
  destruct (first_named db_name l) as [d|]; [reflexivity|].
  fold (create_and_retry handle depth db_name).
  unfold create_and_retry. rewrite bind_logger.
  destruct (handle (POST_datasets db_name) s1) as [[st2 b2|] s2] eqn:Hp.
  2:{ rewrite (bind_send_failure _ _ _ _ _ _ Hp). reflexivity. }
  rewrite (bind_send_response _ _ _ _ _ _ _ _ Hp).
  destruct b2; unfold json_any; cbn [snd];
    try (rewrite bind_ret_value, bind_logger; unfold prepend;
         cbn [result emitted after app]; reflexivity).
  reflexivity.
Qed.

Lemma hook_requests_resolution depth : forall db_name s,
  Forall (fun q => q = GET_datasets \/ q = POST_datasets db_name)
    (requests (emitted (_hook_knowledge_dataset handle depth db_name s))).
Proof.
  induction depth as [|depth IH]; intros db_name s; [constructor|].
  rewrite hook_attempt.
  destruct (handle GET_datasets s) as [[st b|] s1];
    [|repeat constructor].
  destruct (listing_of b) as [l|e|]; try (repeat constructor).
  destruct (first_named db_name l) as [d|]; [repeat constructor|].
  pose proof (IH db_name (snd (handle (POST_datasets db_name) s1))) as Hrec.
  destruct (handle (POST_datasets db_name) s1) as [[st2 b2|] s2];
    cbn [snd] in Hrec; [|cbn; auto].
  destruct b2;
    try (rewrite emitted_prepend, requests_app; apply Forall_app;
         split; [cbn; auto|exact Hrec]);
    cbn; auto.
Qed.

(** X6: whatever the service answers, dataset resolution issues nothing
    but listings of the datasets and create-dataset requests for the name it
    was given: it never reads, writes or deletes a document.  It issues at
    most [depth] create requests, and never raises [HTTPStatusError]: the
    status codes of its two requests are not looked at. *)
Theorem hook_knowledge_dataset_only_resolves :
  forall (depth : nat) (db_name : string) (s : remote),
    let r := _hook_knowledge_dataset handle depth db_name s in
    Forall (fun q => q = GET_datasets \/ q = POST_datasets db_name)
      (requests (emitted r)) /\
    List.length (filter is_create_dataset (requests (emitted r))) <= depth /\
    forall st, result r <> Raise (HTTPStatusError st).
Proof.
  induction depth as [|depth IH]; intros db_name s; cbv zeta.
  - cbn. repeat split; auto. discriminate.
  - rewrite hook_attempt.
    destruct (handle GET_datasets s) as [[st b|] s1].
    2:{ cbn. repeat split; auto; try lia. discriminate. }
    destruct (listing_of b) as [l|e|] eqn:Hb.
    + destruct (first_named db_name l) as [d|].
      * cbn. repeat split; auto; try lia. discriminate.
      * destruct (IH db_name (snd (handle (POST_datasets db_name) s1)))
          as (Hall & Hlen & Hexn).
        destruct (handle (POST_datasets db_name) s1) as [[st2 b2|] s2];
          cbn [snd] in *.
        2:{ cbn. repeat split; auto; try lia. discriminate. }
        destruct b2;
          try (rewrite result_prepend, emitted_prepend, requests_app;
               cbn [requests app filter is_create_dataset List.length];
               repeat split; auto; lia);
          cbn; repeat split; auto; try lia; discriminate.
    + destruct b as [l|[|row rows]|u| |]; cbn in Hb; try discriminate;
        injection Hb as <-; cbn; repeat split; auto; try lia; discriminate.
    + destruct b as [l|[|row rows]|u| |]; discriminate.
Qed.

(** X7: a resolution that returns has issued one more listing than create
    requests, strictly alternating and ending with a listing, and the
    identifier it returns is that of the first dataset named exactly
    [db_name] in the answer to that last listing. *)
Theorem hook_knowledge_dataset_returns_listed_name :
  forall (depth : nat) (db_name : string) (s : remote) (i : string),
    result (_hook_knowledge_dataset handle depth db_name s) = Ret i ->
    let r := _hook_knowledge_dataset handle depth db_name s in
    (exists k,
       k < depth /\
       requests (emitted r)
       = List.concat (repeat (one_retry db_name) k) ++ [GET_datasets]) /\
    (exists s' st b l d,
       handle GET_datasets s' = (Response st b, after r) /\
       listing_of b = Ret l /\
       first_named db_name l = Some d /\
       name d = db_name /\ id d = i).
Proof.
  induction depth as [|depth IH]; intros db_name s i; [discriminate|].
  cbv zeta. rewrite hook_attempt.
  destruct (handle GET_datasets s) as [[st b|] s1] eqn:Hg; [|discriminate].
  destruct (listing_of b) as [l|e|] eqn:Hb; try discriminate.
  destruct (first_named db_name l) as [d|] eqn:Hf.
  - cbn [result emitted after]. intros [= <-]. split.
    + exists 0. split; [lia|reflexivity].
    + exists s, st, b, l, d. repeat split; auto.
      apply first_named_split in Hf.
      destruct Hf as (pre & post & _ & Hd & _). exact Hd.
  - destruct (handle (POST_datasets db_name) s1) as [[st2 b2|] s2];
      [|discriminate].
    assert (Hrec :
      result (_hook_knowledge_dataset handle depth db_name s2) = Ret i ->
      forall evs,
        requests evs = one_retry db_name ->
        (exists k,
           k < S depth /\
           requests (emitted (prepend evs
                      (_hook_knowledge_dataset handle depth db_name s2)))
           = List.concat (repeat (one_retry db_name) k) ++ [GET_datasets]) /\
        (exists s' st b l d,
           handle GET_datasets s'
           = (Response st b,
              after (prepend evs
                       (_hook_knowledge_dataset handle depth db_name s2))) /\
           listing_of b = Ret l /\
           first_named db_name l = Some d /\
           name d = db_name /\ id d = i)).
    { intros Hret evs Hevs.
      destruct (IH db_name s2 i Hret) as ((k & Hk & Hreq) & Hlast).
      split.
      - exists (S k). split; [lia|].
        rewrite emitted_prepend, requests_app, Hevs, Hreq.
        cbn [repeat List.concat]. rewrite app_assoc. reflexivity.
      - exact Hlast. }
    destruct b2; try discriminate;
      rewrite result_prepend; intros Hret; apply (Hrec Hret); reflexivity.
Qed.

(** *** The three writes *)

(** X8: a create-by-text issues exactly one request.  It returns exactly
    when the answer has a success status and its body is an object from
    which [UploadDocumentResponse] can be built, and what it returns is
    built from that object: the batch of the answer, and its document, or
    the empty dictionary when the answer carries no document.  It raises
    [HTTPStatusError] exactly when the status is not a success, whatever
    the body, a well-formed one included. *)
Theorem create_document_by_text_outcome :
  forall (dataset_id table_name text : string) (s : remote),
    let q := POST_create_by_text dataset_id
               (_document_preprocess_payload self table_name text) in
    let r := _create_document_by_text handle self dataset_id table_name text
               s in
    emitted r = [Http q] /\
    after r = snd (handle q s) /\
    (forall u,
       result r = Ret u <->
       exists st j, fst (handle q s) = Response st (JUpload j) /\
                    is_success st = true /\ u = validate_upload j) /\
    (forall st batch,
       fst (handle q s) = Response st (JUpload (UploadJson None batch)) ->
       is_success st = true ->
       result r = Ret (Upload [] batch)) /\
    (forall st,
       result r = Raise (HTTPStatusError st) <->
       exists b, fst (handle q s) = Response st b /\ is_success st = false).
Proof.
  intros dataset_id table_name text s. cbv zeta.
  pose proof (create_run remote handle self dataset_id table_name text s)
    as Hrun. cbv zeta in Hrun. rewrite Hrun. cbn [emitted after result].
  repeat split.
  - destruct (fst (handle _ s)) as [st b|]; cbn [created]; [|discriminate].
    destruct (is_success st) eqn:Hs; [|discriminate].
    destruct b as [| |j| |]; try discriminate. intros [= <-].
    exists st, j. auto.
  - intros (st & j & -> & Hs & ->). cbn [created]. rewrite Hs. reflexivity.
  - intros st batch -> Hs. cbn [created]. rewrite Hs. reflexivity.
  - destruct (fst (handle _ s)) as [st' b|]; cbn [created]; [|discriminate].
    destruct (is_success st') eqn:Hs.
    + destruct b; discriminate.
    + intros [= <-]. exists b. auto.
  - intros (b & -> & Hs). cbn [created]. rewrite Hs. reflexivity.
Qed.

(** What an update-by-text gives, by the answer it gets. *)
Lemma update_outcome dataset_id document_id table_name text s :
  let q := POST_update_by_text dataset_id document_id
             (_document_preprocess_payload self table_name text) in
  _update_document_by_text handle self dataset_id document_id table_name text s
  = match fst (handle q s) with
    | Response st b =>
        if is_success st then
          Run (match b with
               | JUpload j => Ret (Some (validate_upload j))
               | NotJson => Raise JSONDecodeError
               | _ => Raise ValidationError
               end) [Http q] (snd (handle q s))
        else
          Run (Ret None) [Http q; Log ERROR (MsgUpdateFailed table_name)]
            (snd (handle q s))
    | TransportFailure => Run (Raise TransportError) [Http q] (snd (handle q s))
    end.
Proof.
  cbv zeta. unfold _update_document_by_text.
  destruct (handle _ s) as [[st b|] s1] eqn:Hq; cbn [fst snd].
  - rewrite (bind_send_response _ _ _ _ _ _ _ _ Hq). unfold try_except.
    destruct (is_success st) eqn:Hs.
    + rewrite (raise_for_status_ok _ _ _ Hs). destruct b; reflexivity.
    + rewrite (raise_for_status_error _ _ _ Hs). reflexivity.
  - exact (bind_send_failure _ _ _ _ _ _ Hq).
Qed.

(** X9: an update-by-text issues exactly one request and never raises
    [HTTPStatusError].  It returns a response exactly when the answer has a
    success status and its body is an object from which
    [UploadDocumentResponse] can be built (the document defaulting to the
    empty dictionary when the answer carries none), and [None] exactly when
    the status is not a success.  Only that case is recovered: a success
    status with a body from which no response can be built raises, and so
    does a failure of the transport. *)
Theorem update_document_by_text_outcome :
  forall (dataset_id document_id table_name text : string) (s : remote),
    let q := POST_update_by_text dataset_id document_id
               (_document_preprocess_payload self table_name text) in
    let r := _update_document_by_text handle self dataset_id document_id
               table_name text s in
    requests (emitted r) = [q] /\
    (forall u,
       result r = Ret (Some u) <->
       exists st j, fst (handle q s) = Response st (JUpload j) /\
                    is_success st = true /\ u = validate_upload j) /\
    (forall st batch,
       fst (handle q s) = Response st (JUpload (UploadJson None batch)) ->
       is_success st = true ->
       result r = Ret (Some (Upload [] batch))) /\
    (result r = Ret None <->
     exists st b, fst (handle q s) = Response st b /\ is_success st = false) /\
    (forall st, result r <> Raise (HTTPStatusError st)) /\
    (forall st b,
       fst (handle q s) = Response st b -> is_success st = true ->
       (forall j, b <> JUpload j) ->
       exists e, result r = Raise e) /\
    (fst (handle q s) = TransportFailure -> result r = Raise TransportError).
Proof.
  intros dataset_id document_id table_name text s. cbv zeta.
  rewrite update_outcome.
  destruct (fst (handle _ s)) as [st b|].
  - destruct (is_success st) eqn:Hs; cbn [result emitted requests].
    + repeat split; try discriminate.
      * destruct b as [| |j| |]; try discriminate. intros [= <-].
        exists st, j. auto.
      * intros (st' & j & [= <- ->] & _ & ->). reflexivity.
      * intros st' batch [= <- ->] _. reflexivity.
      * destruct b; discriminate.
      * intros (st' & b' & [= <- <-] & H). congruence.
      * destruct b; discriminate.
      * intros st' b' [= <- <-] _ Hb.
        destruct b as [| |j| |]; try (eexists; reflexivity).
        elim (Hb j). reflexivity.
    + repeat split; try discriminate.
      * intros (st' & j & [= <- ->] & H & _). congruence.
      * intros st' batch [= <- ->] H. congruence.
      * intros _. exists st, b. auto.
      * intros st' b' [= <- <-] H. congruence.
  - cbn [result emitted requests]. repeat split; try discriminate.
    + intros (st & j & [=] & _).
    + intros (st & b & [=] & _).
Qed.

(** X10: a delete issues exactly one request and returns exactly when the
    answer has a success status; the body of the answer is never read, so
    an answer without a JSON body is accepted.  Any other status raises
    [HTTPStatusError] with that status. *)
Theorem delete_document_outcome :
  forall (dataset_id document_id : string) (s : remote),
    let q := DELETE_document dataset_id document_id in
    let r := _delete_document handle dataset_id document_id s in
    emitted r = [Http q] /\
    after r = snd (handle q s) /\
    (result r = Ret tt <->
     exists st b, fst (handle q s) = Response st b /\ is_success st = true) /\
    (forall st,
       result r = Raise (HTTPStatusError st) <->
       exists b, fst (handle q s) = Response st b /\ is_success st = false).
Proof.
  intros dataset_id document_id s. cbv zeta.
  pose proof (delete_run remote handle dataset_id document_id s) as Hrun.
  cbv zeta in Hrun. rewrite Hrun. cbn [emitted after result].
  repeat split.
  - destruct (fst (handle _ s)) as [st b|]; [|discriminate].
    destruct (is_success st) eqn:Hs; [|discriminate].
    intros _. exists st, b. auto.
  - intros (st & b & -> & Hs). rewrite Hs. reflexivity.
  - destruct (fst (handle _ s)) as [st' b|]; [|discriminate].
    destruct (is_success st') eqn:Hs; [discriminate|].
    intros [= <-]. exists b. auto.
  - intros (b & -> & Hs). rewrite Hs. reflexivity.
Qed.

(** *** One document, for every service *)

Lemma embed_one_outcome dataset_id force table_name card s :
  let q := GET_documents dataset_id (Some table_name) in
  let s1 := snd (handle q s) in
  let create :=
    bind (_create_document_by_text handle self dataset_id table_name card)
      (fun response => ret (Some response)) in
  embed_one handle self dataset_id force table_name card s
  = match fst (handle q s) with
    | Response _ b =>
        match listing_of b with
        | Ret docs =>
            prepend [Http q]
              (match first_named (table_name ++ ".txt")%string docs with
               | Some d =>
                   if truthy (id d) then
                     if force then
                       bind (_delete_document handle dataset_id (id d))
                         (fun _ => create) s1
                     else
                       _update_document_by_text handle self dataset_id (id d)
                         table_name card s1
                   else create s1
               | None => create s1
               end)
        | Raise e => Run (Raise e) [Http q] s1
        | OutOfFuel => Run OutOfFuel [Http q] s1
        end
    | TransportFailure => Run (Raise TransportError) [Http q] s1
    end.
Proof.
  cbv zeta.
  pose proof (sync_document_id_outcome dataset_id table_name s) as Hl.
  cbv zeta in Hl. unfold embed_one.
  destruct (fst (handle (GET_documents dataset_id (Some table_name)) s))
    as [st b|].
  - destruct (listing_of b) as [docs|e|].
    + rewrite (bind_ret_run _ _ _ _ _ _ _ Hl).
      destruct (first_named _ docs) as [d|]; cbn [option_map]; [|reflexivity].
      destruct (truthy (id d)); [|reflexivity].
      destruct force; reflexivity.
    + exact (bind_raise_run _ _ _ _ _ _ _ Hl).
    + unfold bind. rewrite Hl. reflexivity.
  - exact (bind_raise_run _ _ _ _ _ _ _ Hl).
Qed.

Lemma listing_of_data b docs d :
  listing_of b = Ret docs -> In d docs -> b = JData docs.
Proof.
  destruct b as [l|[|row rows]|u| |]; cbn; try discriminate.
  - congruence.
  - intros [= <-] [].
Qed.

(** X11: whatever the service answers, processing one document of the
    mapping issues one of five sequences of requests and no other: the
    listing alone (it failed, and the body raises); the listing and a
    create-by-text; the listing and an update-by-text, only without
    [force_override]; the listing and a delete (it failed, and the body
    raises), or the listing, a delete and a create-by-text, only with
    [force_override].  The identifier updated or deleted is always the
    non-empty identifier of the first document that this listing returned
    under the exact name. *)
Theorem embed_one_request_sequences :
  forall (dataset_id table_name card : string) (force_override : bool)
    (s : remote),
    let r := embed_one handle self dataset_id force_override table_name card
               s in
    let p := _document_preprocess_payload self table_name card in
    let locate := GET_documents dataset_id (Some table_name) in
    let create := POST_create_by_text dataset_id p in
    (requests (emitted r) = [locate] /\ exists e, result r = Raise e) \/
    requests (emitted r) = [locate; create] \/
    (exists d,
       located handle dataset_id table_name s d /\ force_override = false /\
       requests (emitted r)
       = [locate; POST_update_by_text dataset_id (id d) p]) \/
    (exists d,
       located handle dataset_id table_name s d /\ force_override = true /\
       requests (emitted r) = [locate; DELETE_document dataset_id (id d)] /\
       exists e, result r = Raise e) \/
    (exists d,
       located handle dataset_id table_name s d /\ force_override = true /\
       requests (emitted r)
       = [locate; DELETE_document dataset_id (id d); create]).
Proof.
  intros dataset_id table_name card force_override s. cbv zeta.
  rewrite embed_one_outcome. cbv zeta.
  destruct (handle (GET_documents dataset_id (Some table_name)) s)
    as [[st b|] s1] eqn:Hq; cbn [fst snd].
  2:{ left. split; [reflexivity|]. eexists; reflexivity. }
  destruct (listing_of b) as [docs|e|] eqn:Hb.
  2:{ left. split; [reflexivity|]. eexists; reflexivity. }
  2:{ destruct b as [l|[|row rows]|u| |]; discriminate. }
  assert (Hcreate : forall s',
    requests (emitted (prepend
      [Http (GET_documents dataset_id (Some table_name))]
      (bind (_create_document_by_text handle self dataset_id table_name card)
         (fun response => ret (Some response)) s')))
    = [GET_documents dataset_id (Some table_name);
       POST_create_by_text dataset_id
         (_document_preprocess_payload self table_name card)]).
  { intros s'. rewrite create_some_run. reflexivity. }
  destruct (first_named _ docs) as [d|] eqn:Hf; [|right; left; apply Hcreate].
  destruct (truthy (id d)) eqn:Ht; [|right; left; apply Hcreate].
  assert (Hloc : located handle dataset_id table_name s d).
  { assert (Hin : In d docs).
    { apply first_named_split in Hf.
      destruct Hf as (pre & post & -> & _). apply in_elt. }
    rewrite (listing_of_data _ _ _ Hb Hin) in Hq.
    exists st, docs, s1. auto. }
  destruct force_override.
  - rewrite delete_then_create_run.
    destruct (fst (handle (DELETE_document dataset_id (id d)) s1))
      as [st' b'|].
    + destruct (is_success st').
      * right; right; right; right. exists d. auto.
      * right; right; right; left. exists d. repeat split; auto.
        eexists; reflexivity.
    + right; right; right; left. exists d. repeat split; auto.
      eexists; reflexivity.
  - right; right; left. exists d. repeat split; auto.
    rewrite emitted_prepend, requests_app, update_outcome.
    destruct (fst (handle _ s1)) as [st' b'|]; [|reflexivity].
    destruct (is_success st'); reflexivity.
Qed.

(** The same sequences, by the requests alone. *)
Lemma embed_one_shapes dataset_id table_name card force s :
  let r := embed_one handle self dataset_id force table_name card s in
  let p := _document_preprocess_payload self table_name card in
  let locate := GET_documents dataset_id (Some table_name) in
  let create := POST_create_by_text dataset_id p in
  (requests (emitted r) = [locate] /\ exists e, result r = Raise e) \/
  requests (emitted r) = [locate; create] \/
  (exists i,
     force = false /\
     requests (emitted r) = [locate; POST_update_by_text dataset_id i p]) \/
  (exists i,
     force = true /\
     requests (emitted r) = [locate; DELETE_document dataset_id i] /\
     exists e, result r = Raise e) \/
  (exists i,
     force = true /\
     requests (emitted r)
     = [locate; DELETE_document dataset_id i; create]).
Proof.
  cbv zeta. rewrite embed_one_outcome. cbv zeta.
  destruct (fst (handle (GET_documents dataset_id (Some table_name)) s))
    as [st b|].
  2:{ left. split; [reflexivity|]. eexists; reflexivity. }
  destruct (listing_of b) as [docs|e|] eqn:Hb.
  2:{ left. split; [reflexivity|]. eexists; reflexivity. }
  2:{ destruct b as [l|[|row rows]|u| |]; discriminate. }
  destruct (first_named _ docs) as [d|];
    [|right; left; rewrite create_some_run; reflexivity].
  destruct (truthy (id d));
    [|right; left; rewrite create_some_run; reflexivity].
  destruct force.
  - rewrite delete_then_create_run.
    destruct (fst (handle (DELETE_document dataset_id (id d)) _))
      as [st' b'|].
    + destruct (is_success st').
      * right; right; right; right. exists (id d). auto.
      * right; right; right; left. exists (id d). repeat split.
        eexists; reflexivity.
    + right; right; right; left. exists (id d). repeat split.
      eexists; reflexivity.
  - right; right; left. exists (id d). split; [reflexivity|].
    rewrite emitted_prepend, requests_app, update_outcome.
    destruct (fst (handle _ _)) as [st' b'|]; [|reflexivity].
    destruct (is_success st'); reflexivity.
Qed.

(** *** The batch, for every service *)

Lemma embed_loop_emitted dataset_id force table_name card tasks acc s :
  let r1 := embed_one handle self dataset_id force table_name card s in
  emitted (embed_loop handle self dataset_id force
             ((table_name, card) :: tasks) acc s)
  = emitted r1 ++
    match result r1 with
    | Ret response =>
        emitted (embed_loop handle self dataset_id force tasks
                   (acc ++ [response]) (after r1))
    | _ => []
    end.
Proof. cbv zeta. rewrite embed_loop_cons, bind_emitted. reflexivity. Qed.

Lemma embed_loop_result dataset_id force table_name card tasks acc s :
  let r1 := embed_one handle self dataset_id force table_name card s in
  result (embed_loop handle self dataset_id force
            ((table_name, card) :: tasks) acc s)
  = match result r1 with
    | Ret response =>
        result (embed_loop handle self dataset_id force tasks
                  (acc ++ [response]) (after r1))
    | Raise e => Raise e
    | OutOfFuel => OutOfFuel
    end.
Proof. cbv zeta. rewrite embed_loop_cons, bind_result. reflexivity. Qed.

Lemma embed_one_requests_ok dataset_id force all table_name card s :
  In (table_name, card) all ->
  Forall (embed_request_ok self dataset_id force all)
    (requests (emitted (embed_one handle self dataset_id force table_name
                          card s))).
Proof.
  intros Hin.
  assert (Hlocate : embed_request_ok self dataset_id force all
                      (GET_documents dataset_id (Some table_name))).
  { split; [reflexivity|]. apply (in_map fst) in Hin. exact Hin. }
  assert (Hcreate : embed_request_ok self dataset_id force all
                      (POST_create_by_text dataset_id
                         (_document_preprocess_payload self table_name card))).
  { split; [reflexivity|]. exists table_name, card. auto. }
  destruct (embed_one_shapes dataset_id table_name card force s)
    as [[-> _]|[->|[(i & Hf & ->)|[(i & Hf & -> & _)|(i & Hf & ->)]]]];
    repeat (apply Forall_cons); try apply Forall_nil; auto.
  - cbn. repeat split; auto. exists table_name, card. auto.
  - cbn. auto.
  - cbn. auto.
Qed.

Lemma embed_loop_requests_ok dataset_id force all tasks : forall acc s,
  incl tasks all ->
  Forall (embed_request_ok self dataset_id force all)
    (requests (emitted (embed_loop handle self dataset_id force tasks acc s))).
Proof.
  induction tasks as [|[t c] tasks IH]; intros acc s Hincl.
  - constructor.
  - rewrite embed_loop_emitted, requests_app. apply Forall_app. split.
    + apply embed_one_requests_ok. apply Hincl. left; reflexivity.
    + destruct (result (embed_one handle self dataset_id force t c s));
        try constructor.
      apply IH. intros x Hx. apply Hincl. right; exact Hx.
Qed.

Lemma embed_knowledge_emitted depth task tasks db_name force s :
  let r0 := _hook_knowledge_dataset handle depth db_name s in
  emitted (embed_knowledge handle self depth (task :: tasks) db_name force s)
  = emitted r0 ++
    match result r0 with
    | Ret dataset_id =>
        emitted (embed_loop handle self dataset_id force (task :: tasks) []
                   (after r0))
    | _ => []
    end.
Proof.
  cbv zeta. unfold embed_knowledge. rewrite bind_emitted.
  destruct (result (_hook_knowledge_dataset handle depth db_name s));
    try reflexivity.
  rewrite bind_emitted.
  destruct (result (embed_loop _ _ _ _ _ _ _)); cbn; rewrite app_nil_r;
    reflexivity.
Qed.

(** X12: whatever the service answers, every request that [embed_knowledge]
    issues is a request of dataset resolution for [db_name], or addresses the
    dataset that resolution returned and is: the keyword listing for a table
    name of the mapping, a create-by-text or an update-by-text carrying the
    payload of an entry of the mapping, an update only without
    [force_override], or a delete only with it.  No other dataset is
    touched and no text that is not in the mapping is written. *)
Theorem embed_knowledge_requests_are_of_the_mapping :
  forall (depth : nat) (tasks : list (string * string)) (db_name : string)
    (force_override : bool) (s : remote),
    Forall
      (fun q =>
         q = GET_datasets \/ q = POST_datasets db_name \/
         exists dataset_id,
           result (_hook_knowledge_dataset handle depth db_name s)
           = Ret dataset_id /\
           embed_request_ok self dataset_id force_override tasks q)
      (requests
         (emitted (embed_knowledge handle self depth tasks db_name
                     force_override s))).
Proof.
  intros depth tasks db_name force_override s.
  destruct tasks as [|task tasks]; [constructor|].
  rewrite embed_knowledge_emitted, requests_app. apply Forall_app. split.
  - eapply Forall_impl; [|apply hook_requests_resolution].
    cbn. intros q [-> | ->]; auto.
  - destruct (result (_hook_knowledge_dataset handle depth db_name s))
      as [dataset_id|e|]; try constructor.
    eapply Forall_impl;
      [|apply (embed_loop_requests_ok dataset_id force_override
                 (task :: tasks)); apply incl_refl].
    cbn beta. intros q Hq. right; right. exists dataset_id. auto.
Qed.

(** X13: whatever the service answers and lists, [embed_knowledge] without
    [force_override] never issues a delete; and with or without it, it never
    polls the indexing status: the call ends without waiting for the
    indexing of what it wrote. *)
Theorem embed_knowledge_never_deletes_unforced :
  forall (depth : nat) (tasks : list (string * string)) (db_name : string)
    (s : remote),
    filter is_delete
      (requests (emitted (embed_knowledge handle self depth tasks db_name
                            false s))) = [] /\
    forall force_override,
      filter is_indexing_poll
        (requests (emitted (embed_knowledge handle self depth tasks db_name
                              force_override s))) = [].
Proof.
  intros depth tasks db_name s.
  assert (Hnone : forall (f : request -> bool) l,
            Forall (fun q => f q = false) l -> filter f l = []).
  { intros f l H. induction H as [|q l Hq _ IH]; cbn; [reflexivity|].
    rewrite Hq. exact IH. }
  assert (Hres : forall (f : request -> bool),
            f GET_datasets = false -> f (POST_datasets db_name) = false ->
            forall l,
              Forall (fun q => q = GET_datasets \/ q = POST_datasets db_name) l ->
              Forall (fun q => f q = false) l).
  { intros f H1 H2 l H. eapply Forall_impl; [|exact H].
    cbn. intros q [-> | ->]; auto. }
  assert (Hsplit : forall (f : request -> bool) force_override,
            f GET_datasets = false -> f (POST_datasets db_name) = false ->
            (forall dataset_id q,
               embed_request_ok self dataset_id force_override tasks q ->
               f q = false) ->
            filter f
              (requests (emitted (embed_knowledge handle self depth tasks
                                    db_name force_override s))) = []).
  { intros f force_override H1 H2 Hok. apply Hnone.
    destruct tasks as [|task tasks]; [constructor|].
    rewrite embed_knowledge_emitted, requests_app. apply Forall_app. split.
    - apply Hres; auto. apply hook_requests_resolution.
    - destruct (result (_hook_knowledge_dataset handle depth db_name s))
        as [dataset_id|e|]; try constructor.
      eapply Forall_impl;
        [|apply (embed_loop_requests_ok dataset_id force_override
                   (task :: tasks)); apply incl_refl].
      cbn beta. intros q Hq. exact (Hok dataset_id q Hq). }
  split.
  - apply Hsplit; try reflexivity.
    intros dataset_id q Hok.
    destruct q as [| |d' [k|]| | | |]; cbn in Hok |- *;
      try reflexivity; try contradiction.
    destruct Hok as [_ [=]].
  - intros force_override. apply Hsplit; try reflexivity.
    intros dataset_id q Hok.
    destruct q as [| |d' [k|]| | | |]; cbn in Hok |- *;
      try reflexivity; try contradiction.
Qed.

Lemma filter_app_requests (f : request -> bool) (a b : list event) :
  filter f (requests (a ++ b))
  = filter f (requests a) ++ filter f (requests b).
Proof. rewrite requests_app. apply filter_app. Qed.

(** X14: the documents are processed in the order of the mapping.  Whatever
    the service answers, the keyword listings issued by the loop are those
    of the first [n] table names of the mapping, in order, for some [n];
    and when the loop returns, [n] is the size of the mapping and exactly
    one create-by-text or update-by-text was issued per document. *)
Theorem embed_loop_follows_the_mapping :
  forall (dataset_id : string) (force_override : bool)
    (tasks : list (string * string))
    (acc : list (option UploadDocumentResponse)) (s : remote),
    let r := embed_loop handle self dataset_id force_override tasks acc s in
    (exists n,
       n <= List.length tasks /\
       filter is_locate (requests (emitted r))
       = map (fun t => GET_documents dataset_id (Some t))
           (firstn n (map fst tasks))) /\
    (forall seq,
       result r = Ret seq ->
       filter is_locate (requests (emitted r))
       = map (fun t => GET_documents dataset_id (Some t)) (map fst tasks) /\
       List.length (filter is_document_write (requests (emitted r)))
       = List.length tasks).
Proof.
  intros dataset_id force_override tasks.
  induction tasks as [|[t c] tasks IH]; intros acc s; cbv zeta.
  - split.
    + exists 0. split; [lia|reflexivity].
    + intros seq _. split; reflexivity.
  - rewrite embed_loop_emitted, embed_loop_result.
    rewrite !filter_app_requests.
    assert (Hlocate :
      filter is_locate
        (requests (emitted (embed_one handle self dataset_id force_override
                              t c s)))
      = [GET_documents dataset_id (Some t)]).
    { destruct (embed_one_shapes dataset_id t c force_override s)
        as [[-> _]|[->|[(i & _ & ->)|[(i & _ & -> & _)|(i & _ & ->)]]]];
        reflexivity. }
    assert (Hwrite : forall resp,
      result (embed_one handle self dataset_id force_override t c s)
      = Ret resp ->
      List.length
        (filter is_document_write
           (requests (emitted (embed_one handle self dataset_id
                                 force_override t c s)))) = 1).
    { intros resp Hret.
      destruct (embed_one_shapes dataset_id t c force_override s)
        as [[_ [e He]]|[->|[(i & _ & ->)|[(i & _ & _ & [e He])
                                          |(i & _ & ->)]]]];
        try reflexivity; rewrite He in Hret; discriminate. }
    rewrite Hlocate.
    destruct (result (embed_one handle self dataset_id force_override t c s))
      as [resp|e|] eqn:Hone.
    + destruct (IH (acc ++ [resp])
                  (after (embed_one handle self dataset_id force_override
                            t c s))) as ((n & Hn & Hpre) & Hall).
      split.
      * exists (S n). split; [cbn; lia|]. rewrite Hpre. reflexivity.
      * intros seq Hret. destruct (Hall seq Hret) as (Hl & Hw). split.
        -- rewrite Hl. reflexivity.
        -- rewrite length_app, (Hwrite resp eq_refl), Hw. reflexivity.
    + split; [|discriminate].
      exists 1. split; [cbn; lia|]. reflexivity.
    + split; [|discriminate].
      exists 1. split; [cbn; lia|]. reflexivity.
Qed.

(** *** Bulk delete and the monitor, for every service *)

Lemma delete_loop_shape dataset_id : forall docs s,
  let r := delete_loop handle dataset_id docs s in
  exists n,
    n <= List.length docs /\
    requests (emitted r)
    = map (fun d => DELETE_document dataset_id (id d)) (firstn n docs) /\
    ((result r = Ret tt /\ n = List.length docs) \/
     (result r = Raise TransportError /\ 1 <= n)).
Proof.
  induction docs as [|doc docs IH]; intros s; cbv zeta.
  - exists 0. cbn. repeat split; auto.
  - rewrite delete_loop_cons. cbv zeta.
    destruct (fst (handle (DELETE_document dataset_id (id doc)) s))
      as [st b|].
    + destruct (IH (snd (handle (DELETE_document dataset_id (id doc)) s)))
        as (n & Hn & Hreq & Hres).
      exists (S n). rewrite result_prepend, emitted_prepend, requests_app, Hreq.
      split; [cbn; lia|]. split.
      * unfold delete_report. destruct (is_success st); reflexivity.
      * destruct Hres as [[Hr ->]|[Hr Hge]]; [left|right]; split; auto;
          lia.
    + exists 1. cbn. repeat split; auto; lia.
Qed.




(** X17: whatever the service answers, [delete_all_document] issues
    nothing but requests of dataset resolution for [db_name], one listing
    without keyword of the documents of the dataset that resolution
    returned, and deletes in that dataset: it never creates or updates a
    document, and touches no document before the dataset is resolved. *)
Theorem delete_all_document_never_writes :
  forall (depth : nat) (db_name : string) (s : remote),
    Forall
      (fun q =>
         q = GET_datasets \/ q = POST_datasets db_name \/
         exists dataset_id,
           result (_hook_knowledge_dataset handle depth db_name s)
           = Ret dataset_id /\
           (q = GET_documents dataset_id None \/
            exists i, q = DELETE_document dataset_id i))
      (requests (emitted (delete_all_document handle depth db_name s))).
Proof.
  intros depth db_name s. unfold delete_all_document.
  rewrite bind_emitted, requests_app. apply Forall_app. split.
  - eapply Forall_impl; [|apply hook_requests_resolution].
    cbn. intros q [-> | ->]; auto.
  - destruct (result (_hook_knowledge_dataset handle depth db_name s))
      as [dataset_id|e|] eqn:Hhook; try constructor.
    rewrite bind_emitted, requests_app, list_documents_outcome.
    cbn [emitted result after]. apply Forall_app. split.
    + apply Forall_cons; [|apply Forall_nil].
      right; right. exists dataset_id. auto.
    + destruct (match fst (handle (GET_documents dataset_id None) _) with
                | Response _ b => listing_of b
                | TransportFailure => Raise TransportError
                end) as [docs|e|]; try constructor.
      rewrite bind_emitted, requests_app. apply Forall_app. split.
      * destruct (delete_loop_shape dataset_id docs
                    (snd (handle (GET_documents dataset_id None)
                            (after (_hook_knowledge_dataset handle depth
                                      db_name s)))))
          as (n & _ & -> & _).
        apply Forall_forall. intros q Hq. apply in_map_iff in Hq.
        destruct Hq as (d & <- & _). right; right.
        exists dataset_id. split; [reflexivity|]. right. exists (id d).
        reflexivity.
      * destruct (result (delete_loop _ _ _ _)); constructor.
Qed.

(** The error records of one loop body, by the value it gives. *)
Lemma embed_one_failure_records dataset_id force table_name card s resp :
  result (embed_one handle self dataset_id force table_name card s)
  = Ret resp ->
  filter is_update_failure
    (emitted (embed_one handle self dataset_id force table_name card s))
  = if is_none resp then [Log ERROR (MsgUpdateFailed table_name)] else [].
Proof.
  rewrite embed_one_outcome. cbv zeta.
  destruct (fst (handle (GET_documents dataset_id (Some table_name)) s))
    as [st b|]; [|discriminate].
  destruct (listing_of b) as [docs|e|]; try discriminate.
  assert (Hcreate : forall s',
    result (prepend [Http (GET_documents dataset_id (Some table_name))]
      (bind (_create_document_by_text handle self dataset_id table_name card)
         (fun response => ret (Some response)) s')) = Ret resp ->
    filter is_update_failure
      (emitted (prepend [Http (GET_documents dataset_id (Some table_name))]
         (bind (_create_document_by_text handle self dataset_id table_name
                  card)
            (fun response => ret (Some response)) s')))
    = if is_none resp then [Log ERROR (MsgUpdateFailed table_name)] else []).
  { intros s'. rewrite create_some_run. cbn [result prepend emitted app].
    destruct (created _); try discriminate. intros [= <-]. reflexivity. }
  destruct (first_named _ docs) as [d|]; [|apply Hcreate].
  destruct (truthy (id d)); [|apply Hcreate].
  destruct force.
  - rewrite delete_then_create_run.
    destruct (fst (handle (DELETE_document dataset_id (id d)) _))
      as [st' b'|]; [|discriminate].
    destruct (is_success st'); [|discriminate].
    cbn [result prepend emitted app].
    destruct (created _); try discriminate. intros [= <-]. reflexivity.
  - rewrite update_outcome.
    destruct (fst (handle _ _)) as [st' b'|]; [|discriminate].
    destruct (is_success st').
    + cbn [result prepend emitted app].
      destruct b'; try discriminate. intros [= <-]. reflexivity.
    + cbn [result prepend emitted app]. intros [= <-]. reflexivity.
Qed.

(** X18: every [None] of [response_seq] is reported, and nothing else is:
    when the loop of [embed_knowledge] returns, the number of [None]
    entries it has appended equals the number of error records of line 77
    it has written, and with [force_override] it has appended and written
    none. *)
Theorem embed_loop_reports_every_none :
  forall (dataset_id : string) (force_override : bool)
    (tasks : list (string * string))
    (acc seq : list (option UploadDocumentResponse)) (s : remote),
    let r := embed_loop handle self dataset_id force_override tasks acc s in
    result r = Ret seq ->
    List.length (filter is_none seq)
    = List.length (filter is_none acc) +
      List.length (filter is_update_failure (emitted r)) /\
    (force_override = true ->
     filter is_update_failure (emitted r) = []).
Proof.
  intros dataset_id force_override tasks.
  induction tasks as [|[t c] tasks IH]; intros acc seq s; cbv zeta.
  - cbn. intros [= <-]. split; [lia|reflexivity].
  - rewrite embed_loop_result, embed_loop_emitted.
    destruct (result (embed_one handle self dataset_id force_override t c s))
      as [resp|e|] eqn:Hone; try discriminate.
    intros Hret. destruct (IH _ _ _ Hret) as (Hcount & Hforce).
    rewrite filter_app, length_app.
    rewrite (embed_one_failure_records _ _ _ _ _ _ Hone).
    rewrite Hcount, filter_app, length_app. split.
    + destruct resp; cbn; lia.
    + intros ->. rewrite (Hforce eq_refl), app_nil_r.
      destruct resp as [u|]; [reflexivity|].
      destruct (embed_one_none remote handle self dataset_id true t c s Hone)
        as ([=] & _).
Qed.

End Coverage.

(** ** The further properties on concrete services *)


(** X3 on a separator of the caller. *)
Lemma payload_separator_never_empty_witness :
  segmentation_separator
    (_document_preprocess_payload (__init__ (Some "|")) "a" "x") = "|".
Proof.
  apply (proj1 (proj2 (payload_separator_never_empty (Some "|") "a" "x"))
           "|"); reflexivity.
Defined.

(** X5 on a listing with a longer name first and the exact name twice. *)
Lemma sync_document_id_first_exact_match_witness :
  result
    (_sync_document_id
       (fixed_handle
          [Item "d0" "ab.txt"; Item "d1" "a.txt"; Item "d2" "a.txt"] 200)
       "ds-1" "a" tt)
  = Ret (Some "d1").
Proof.
  apply (proj2 (proj2 (sync_document_id_first_exact_match unit
                  (fixed_handle
                     [Item "d0" "ab.txt"; Item "d1" "a.txt"; Item "d2" "a.txt"]
                     200)
                  "ds-1" "a" tt tt 200
                  [Item "d0" "ab.txt"; Item "d1" "a.txt"; Item "d2" "a.txt"]
                  eq_refl) "d1")).
  exists [Item "d0" "ab.txt"], (Item "d1" "a.txt"), [Item "d2" "a.txt"].
  repeat split.
  intros x [<-|[]]. discriminate.
Defined.

(** X7 on the service that lags by one create request. *)
Lemma hook_knowledge_dataset_returns_listed_name_witness :
  let r := _hook_knowledge_dataset (lagging_handle 1) 2 "catalog" 0 in
  (exists k,
     k < 2 /\
     requests (emitted r)
     = List.concat (repeat (one_retry "catalog") k) ++ [GET_datasets]) /\
  (exists s' st b l d,
     lagging_handle 1 GET_datasets s' = (Response st b, after r) /\
     listing_of b = Ret l /\
     first_named "catalog" l = Some d /\
     name d = "catalog" /\ id d = "ds-1").
Proof.
  apply (hook_knowledge_dataset_returns_listed_name nat (lagging_handle 1)
           2 "catalog" 0 "ds-1").
  reflexivity.
Defined.

(** X8 on a create that is accepted with a batch and no document. *)
Lemma create_document_by_text_outcome_witness :
  result (_create_document_by_text (fixed_handle [] 200) fire_drop
            "ds-1" "a" "x" tt)
  = Ret (Upload [] "batch-a").
Proof.
  apply (proj1 (proj2 (proj2 (proj2
           (create_document_by_text_outcome unit (fixed_handle [] 200)
              fire_drop "ds-1" "a" "x" tt)))) 200%Z "batch-a");
    reflexivity.
Defined.

(** X9 on an update that is refused. *)
Lemma update_document_by_text_outcome_witness :
  result (_update_document_by_text (fixed_handle [] 400) fire_drop
            "ds-1" "d1" "a" "x" tt)
  = Ret None.
Proof.
  apply (proj2 (proj1 (proj2 (proj2 (proj2
           (update_document_by_text_outcome unit (fixed_handle [] 400)
              fire_drop "ds-1" "d1" "a" "x" tt)))))).
  exists 400%Z, (JUpload (UploadJson None "batch-a")). split; reflexivity.
Defined.

(** X10 on a delete answered 204 without a body. *)
Lemma delete_document_outcome_witness :
  result (_delete_document (unreachable_handle [] "doc-b") "ds-1" "doc-a" tt)
  = Ret tt.
Proof.
  apply (proj2 (proj1 (proj2 (proj2
           (delete_document_outcome unit (unreachable_handle [] "doc-b")
              "ds-1" "doc-a" tt))))).
  exists 204%Z, NotJson. split; reflexivity.
Defined.

(** X14 on the in-memory service: one archived document, one new. *)
Lemma embed_loop_follows_the_mapping_witness :
  let r := embed_loop memory_handle fire_drop "ds-catalog" false
             [("a", "x"); ("b", "y")] [] archived_memory in
  filter is_locate (requests (emitted r))
  = map (fun t => GET_documents "ds-catalog" (Some t))
      (map fst [("a", "x"); ("b", "y")]) /\
  List.length (filter is_document_write (requests (emitted r)))
  = List.length [("a", "x"); ("b", "y")].
Proof.
  apply (proj2 (embed_loop_follows_the_mapping memory memory_handle fire_drop
                  "ds-catalog" false [("a", "x"); ("b", "y")] []
                  archived_memory)
           [None; Some (Upload [] "batch-b")]).
  reflexivity.
Defined.


(** The run of the previous service: the third document is left alone. *)
Example delete_all_document_stops_at_transport_failure :
  let r := delete_all_document
             (unreachable_handle
                [Item "doc-a" "a.txt"; Item "doc-b" "b.txt";
                 Item "doc-c" "c.txt"] "doc-b") 1 "catalog" tt in
  result r = Raise TransportError /\
  requests (emitted r)
  = [GET_datasets; GET_documents "ds-1" None;
     DELETE_document "ds-1" "doc-a"; DELETE_document "ds-1" "doc-b"].
Proof. split; reflexivity. Qed.

(** X18 on the in-memory service: one refused update, one create. *)
Lemma embed_loop_reports_every_none_witness :
  let r := embed_loop memory_handle fire_drop "ds-catalog" false
             [("a", "x"); ("b", "y")] [] archived_memory in
  List.length (filter is_none [None; Some (Upload [] "batch-b")])
  = List.length (filter is_none []) +
    List.length (filter is_update_failure (emitted r)) /\
  (false = true -> filter is_update_failure (emitted r) = []).
Proof.
  apply (embed_loop_reports_every_none memory memory_handle fire_drop
           "ds-catalog" false [("a", "x"); ("b", "y")] []
           [None; Some (Upload [] "batch-b")] archived_memory).
  reflexivity.
Defined.
